(** * OutbreakGuardian: the inference gateway of the ML backend

    A shallow embedding of the request handlers of [backend/main.py],
    [backend/main-lstm.py] and [backend/main-working.py], and the properties
    of prediction, optimisation, batching, start-up and preprocessing.

    Python [float] is IEEE 754 binary64: it is modelled by Rocq's primitive
    [float], so every arithmetic expression below evaluates to the value the
    interpreter computes.  Python [int] is unbounded: it is modelled by [Z].
    A request handler either returns a value or raises: [result]. *)

From Stdlib Require Import ZArith List String Bool Lia Floats.
Import ListNotations.

Set Warnings "-inexact-float".

(** ** Python values, exceptions and built-ins *)

Module Py.

(** The exceptions the handlers can meet.  [ModelError] stands for whatever
    an external model or scaler raises. *)
Inductive exn : Type :=
| OverflowError
| ZeroDivisionError
| IndexError
| ValueError
| ModelError
| HTTPException (status_code : Z) (detail : string).

Inductive result (A : Type) : Type :=
| Ok (a : A)
| Raise (e : exn).

Arguments Ok {A} a.
Arguments Raise {A} e.

Definition bind {A B : Type} (r : result A) (k : A -> result B) : result B :=
  match r with
  | Ok a => k a
  | Raise e => Raise e
  end.

(** [try: body except Exception as e: handler]. *)
Definition try_except {A : Type} (body : result A) (handler : exn -> result A)
  : result A :=
  match body with
  | Ok a => Ok a
  | Raise e => handler e
  end.

Definition is_ok {A : Type} (r : result A) : bool :=
  match r with Ok _ => true | Raise _ => false end.

(** A [dict] literal, in insertion order. *)
Definition dict (V : Type) : Type := list (string * V).

Fixpoint dict_get {V : Type} (k : string) (d : dict V) : option V :=
  match d with
  | [] => None
  | (k', v) :: d' => if String.eqb k k' then Some v else dict_get k d'
  end.

(** [max(a, b)] and [min(a, b)] on two numbers: the first argument is kept
    unless the second compares strictly greater (smaller).  A NaN second
    argument never compares, so the first argument is returned.  The integer
    literals of the source ([0], [100], [95], ...) are exactly representable
    and compare with a float as their float value does; the float-typed
    response field converts them on output. *)
Definition fmax (a b : float) : float := if (a <? b)%float then b else a.
Definition fmin (a b : float) : float := if (b <? a)%float then b else a.

(** The float nearest to an integer (round half to even).  Beyond the
    binary64 range the rounding gives an infinity. *)
Definition Z2float (n : Z) : float :=
  SF2Prim (binary_normalize prec emax n 0 false).

(** [float(n)], also the implicit conversion of [n * 0.8]: Python raises
    [OverflowError] ("int too large to convert to float") where the rounded
    value would not be finite. *)
Definition float_of_int (n : Z) : option float :=
  let f := Z2float n in
  if is_infinity f then None else Some f.

Definition float_of_int_r (n : Z) : result float :=
  match float_of_int n with
  | Some f => Ok f
  | None => Raise OverflowError
  end.

(** [int(x)] on a float: truncation towards zero; [ValueError] on NaN and
    [OverflowError] on an infinity. *)
Definition int_of_float (x : float) : result Z :=
  match Prim2SF x with
  | S754_nan => Raise ValueError
  | S754_infinity _ => Raise OverflowError
  | S754_zero _ => Ok 0%Z
  | S754_finite s m e =>
      let a := Z.shiftl (Zpos m) e in
      Ok (if s then Z.opp a else a)
  end.

(** [a[k]] on a sequence: [IndexError] out of range. *)
Definition index {A : Type} (a : list A) (k : nat) : result A :=
  match nth_error a k with
  | Some x => Ok x
  | None => Raise IndexError
  end.

(** [float(row[k]) if len(row) > k else default]. *)
Definition item_or (row : list float) (k : nat) (default : float) : float :=
  if (k <? List.length row)%nat then nth k row default else default.

(** [sum(xs)] on a list of floats: left to right from [0] (the plain loop of
    CPython up to 3.11; later versions compensate the rounding error). *)
Definition sum (xs : list float) : float :=
  fold_left PrimFloat.add xs 0%float.

End Py.

Import Py.

Notation "x <- e ;; k" := (bind e (fun x => k))
  (at level 61, e at next level, right associativity).

(** ** The request and response schemas (the pydantic models, the same in
    every variant of the backend) *)

Record MLPredictionInput : Type := {
  temperature : float;
  humidity : float;
  populationDensity : float;
  previousCases : Z;
  wastewaterLevels : float;
  socialMediaSentiment : float;
  timestamp : string
}.

Record MLPredictionOutput : Type := {
  riskLevel : float;
  predictedCases : float;
  confidence : float;
  featureImportance : dict float
}.

Record OptimizationInput : Type := {
  beds : Z;
  nurses : Z;
  doctors : Z;
  equipment : Z;
  currentWaitTimes : list float;
  patientFlow : list float
}.

Record OptimizationOutput : Type := {
  optimizedAllocation : dict Z;
  expectedImprovements : dict float;
  recommendations : list string
}.

(** A cell of a nested list literal and of the array [np.array] builds from
    it. *)
Inductive scalar : Type :=
| PyFloat (x : float)
| PyInt (n : Z).

(** A two-dimensional array, by rows. *)
Definition ndarray : Type := list (list scalar).

Definition fits_machine_int (c : scalar) : bool :=
  match c with
  | PyFloat _ => true
  | PyInt n => (- 2 ^ 63 <=? n)%Z && (n <? 2 ^ 64)%Z
  end.

Definition to_float64 (c : scalar) : scalar :=
  match c with
  | PyFloat x => PyFloat x
  | PyInt n => PyFloat (Z2float n)
  end.

(** [np.array(rows)] on floats and ints: a float64 array when every int fits
    a 64-bit machine integer (it is then converted, rounding to nearest);
    otherwise numpy keeps the Python objects (dtype [object]). *)
Definition np_array (rows : list (list scalar)) : ndarray :=
  if forallb (forallb fits_machine_int) rows
  then map (map to_float64) rows
  else rows.

(** A loaded model, seen through the one way the handlers use it:
    [model.predict(model_input)], giving the rows of a two-dimensional array
    or raising. *)
Definition model_handle : Type := ndarray -> result (list (list float)).

(** The fixed feature-importance mapping. *)
Definition feature_importance : dict float :=
  [ ("temperature", 0.85); ("humidity", 0.72); ("populationDensity", 0.68);
    ("previousCases", 0.91); ("wastewaterLevels", 0.63);
    ("socialMediaSentiment", 0.45) ]%string%float.

(** The fixed recommendation list. *)
Definition fixed_recommendations : list string :=
  [ "Redistribute 12 beds from General Ward to ICU";
    "Schedule additional nursing staff during peak hours (2-6 PM)";
    "Relocate portable equipment to Emergency Department" ]%string.

(** The simulated risk and case formulas, shared by [main.py] and
    [main-lstm.py]; [pc] is [previousCases] as the float the products use. *)
Definition risk_level (i : MLPredictionInput) (pc : float) : float :=
  fmin 100 (fmax 0
    (30 + (temperature i - 20) * 0.5 +
     (humidity i - 50) * 0.3 +
     pc * 0.8 +
     wastewaterLevels i * 0.6))%float.

Definition predicted_cases (i : MLPredictionInput) (pc : float) : float :=
  fmax 0
    (pc * 1.1 +
     (populationDensity i / 1000) * 0.5 +
     (socialMediaSentiment i - 0.5) * 10)%float.

(** ** backend/main.py *)

Module Main.

Record ModelInfo : Type := {
  isLoaded : bool;
  version : string;
  accuracy : float;
  lastTraining : string
}.

(** The module-level globals. *)
Record globals : Type := {
  outbreak_model : option model_handle;
  optimization_model : option model_handle;
  model_info : ModelInfo
}.

Definition initial_globals : globals :=
  {| outbreak_model := None;
     optimization_model := None;
     model_info := {| isLoaded := false; version := "1.0.0";
                      accuracy := 89.3; lastTraining := "2024-01-01" |} |}.

Definition set_isLoaded (b : bool) (g : globals) : globals :=
  {| outbreak_model := outbreak_model g;
     optimization_model := optimization_model g;
     model_info := {| isLoaded := b;
                      version := version (model_info g);
                      accuracy := accuracy (model_info g);
                      lastTraining := lastTraining (model_info g) |} |}.

Definition is_not_None {A : Type} (o : option A) : bool :=
  match o with Some _ => true | None => false end.

(** What start-up finds under [models/]: for each path, [None] when
    [os.path.exists] is false, otherwise what [joblib.load] does. *)
Record model_files : Type := {
  outbreak_model_path : option (result model_handle);
  optimization_model_path : option (result model_handle)
}.

(** [startup_event]: any exception of a load leaves the globals assigned so
    far and sets [isLoaded] to [False]. *)
Definition startup_event (fs : model_files) (g : globals) : globals :=
  match outbreak_model_path fs with
  | Some (Raise _) => set_isLoaded false g
  | loaded1 =>
      let g1 :=
        match loaded1 with
        | Some (Ok m) =>
            {| outbreak_model := Some m;
               optimization_model := optimization_model g;
               model_info := model_info g |}
        | _ => g
        end in
      match optimization_model_path fs with
      | Some (Raise _) => set_isLoaded false g1
      | loaded2 =>
          let g2 :=
            match loaded2 with
            | Some (Ok m) =>
                {| outbreak_model := outbreak_model g1;
                   optimization_model := Some m;
                   model_info := model_info g1 |}
            | _ => g1
            end in
          set_isLoaded (is_not_None (outbreak_model g2) ||
                        is_not_None (optimization_model g2)) g2
      end
  end.

Definition get_model_info (g : globals) : ModelInfo := model_info g.

Section Handlers.

(** numpy's global generator: [np.random.random()] returns a float and
    advances the generator state. *)
Variable rng_state : Type.
Variable np_random : rng_state -> float * rng_state.

(** [np.mean] on a list of floats (pairwise summation inside numpy; NaN with
    a warning, and no exception, on the empty list). *)
Variable np_mean : list float -> float.

(** [simulate_prediction]: the products with [previousCases] convert it
    first; the generator is drawn once, when the response is built. *)
Definition simulate_prediction (input_data : MLPredictionInput) (s : rng_state)
  : result MLPredictionOutput * rng_state :=
  match float_of_int (previousCases input_data) with
  | None => (Raise OverflowError, s)
  | Some pc =>
      let risk := risk_level input_data pc in
      let cases := predicted_cases input_data pc in
      let (u, s') := np_random s in
      (Ok {| riskLevel := risk;
             predictedCases := cases;
             confidence := fmin 95 (70 + u * 25)%float;
             featureImportance := feature_importance |}, s')
  end.

(** The model branch of [predict_outbreak], up to its [return]. *)
Definition predict_with_model (model : model_handle) (input_data : MLPredictionInput)
  : result MLPredictionOutput :=
  let model_input := np_array
    [[ PyFloat (temperature input_data);
       PyFloat (humidity input_data);
       PyFloat (populationDensity input_data);
       PyInt (previousCases input_data);
       PyFloat (wastewaterLevels input_data);
       PyFloat (socialMediaSentiment input_data) ]] in
  prediction <- model model_input ;;
  row <- index prediction 0 ;;
  let risk := item_or row 0 50.0%float in
  let cases := item_or row 1 25.0%float in
  let conf := item_or row 2 85.0%float in
  Ok {| riskLevel := fmin 100 (fmax 0 risk);
        predictedCases := fmax 0 cases;
        confidence := fmin 100 (fmax 0 conf);
        featureImportance := feature_importance |}.

(** [predict_outbreak]: the whole body is inside [try]; the handler of
    [except Exception] calls [simulate_prediction] again, unprotected. *)
Definition predict_outbreak (g : globals) (input_data : MLPredictionInput)
    (s : rng_state) : result MLPredictionOutput * rng_state :=
  let attempt :=
    match outbreak_model g with
    | None => simulate_prediction input_data s
    | Some model => (predict_with_model model input_data, s)
    end in
  match attempt with
  | (Ok out, s') => (Ok out, s')
  | (Raise _, s') => simulate_prediction input_data s'
  end.

(** [simulate_optimization]: integer arithmetic only. *)
Definition simulate_optimization (input_data : OptimizationInput)
  : OptimizationOutput :=
  let optimized_allocation :=
    [ ("beds", Z.min 100 (beds input_data + 5));
      ("nurses", Z.min 150 (nurses input_data + 10));
      ("doctors", Z.min 50 (doctors input_data + 2));
      ("equipment", Z.min 100 (equipment input_data + 3)) ]%string%Z in
  let expected_improvements :=
    [ ("waitTimeReduction", 28.0); ("bedUtilization", 92.0);
      ("staffEfficiency", 15.0); ("patientSatisfaction", 22.0) ]%string%float in
  {| optimizedAllocation := optimized_allocation;
     expectedImprovements := expected_improvements;
     recommendations := fixed_recommendations |}.

(** [min(ceiling, max(0, int(x)))]. *)
Definition clamp_int (ceiling : Z) (x : float) : result Z :=
  n <- int_of_float x ;;
  Ok (Z.min ceiling (Z.max 0 n)).

(** The model branch of [optimize_resources], up to its [return]. *)
Definition optimize_with_model (model : model_handle) (input_data : OptimizationInput)
  : result OptimizationOutput :=
  let model_input := np_array
    [[ PyInt (beds input_data);
       PyInt (nurses input_data);
       PyInt (doctors input_data);
       PyInt (equipment input_data);
       PyFloat (np_mean (currentWaitTimes input_data));
       PyFloat (np_mean (patientFlow input_data)) ]] in
  optimization <- model model_input ;;
  row <- index optimization 0 ;;
  x0 <- index row 0 ;; b <- clamp_int 100 x0 ;;
  x1 <- index row 1 ;; n <- clamp_int 150 x1 ;;
  x2 <- index row 2 ;; d <- clamp_int 50 x2 ;;
  x3 <- index row 3 ;; e <- clamp_int 100 x3 ;;
  let optimized_allocation :=
    [ ("beds", b); ("nurses", n); ("doctors", d); ("equipment", e) ]%string in
  let expected_improvements :=
    [ ("waitTimeReduction", item_or row 4 28.0%float);
      ("bedUtilization", item_or row 5 92.0%float);
      ("staffEfficiency", item_or row 6 15.0%float);
      ("patientSatisfaction", item_or row 7 22.0%float) ]%string in
  Ok {| optimizedAllocation := optimized_allocation;
        expectedImprovements := expected_improvements;
        recommendations := fixed_recommendations |}.

(** [optimize_resources]: as [predict_outbreak], with a fallback that
    cannot raise. *)
Definition optimize_resources (g : globals) (input_data : OptimizationInput)
  : result OptimizationOutput :=
  try_except
    (match optimization_model g with
     | None => Ok (simulate_optimization input_data)
     | Some model => optimize_with_model model input_data
     end)
    (fun _ => Ok (simulate_optimization input_data)).

(** The loop of [predict_batch]: [predictions.append(prediction)] per item;
    an exception of an item leaves the loop. *)
Fixpoint predict_loop (g : globals) (inputs : list MLPredictionInput)
    (predictions : list MLPredictionOutput) (s : rng_state)
  : result (list MLPredictionOutput) * rng_state :=
  match inputs with
  | [] => (Ok predictions, s)
  | input_data :: rest =>
      match predict_outbreak g input_data s with
      | (Ok prediction, s') => predict_loop g rest (predictions ++ [prediction]) s'
      | (Raise e, s') => (Raise e, s')
      end
  end.

(** [predict_batch]: the result is the list under the key ["predictions"];
    any exception becomes [HTTPException(500, "Batch prediction failed")]. *)
Definition predict_batch (g : globals) (inputs : list MLPredictionInput)
    (s : rng_state) : result (list MLPredictionOutput) * rng_state :=
  match predict_loop g inputs [] s with
  | (Ok predictions, s') => (Ok predictions, s')
  | (Raise _, s') => (Raise (HTTPException 500 "Batch prediction failed"), s')
  end.

End Handlers.

End Main.

Arguments Main.simulate_prediction {rng_state} np_random input_data s.
Arguments Main.predict_outbreak {rng_state} np_random g input_data s.
Arguments Main.predict_loop {rng_state} np_random g inputs predictions s.
Arguments Main.predict_batch {rng_state} np_random g inputs s.

(** ** backend/main-lstm.py *)

Module MainLstm.

Record ModelInfo : Type := {
  isLoaded : bool;
  version : string;
  accuracy : float;
  lastTraining : string;
  modelType : string
}.

(** A loaded scaler, seen through [scaler.transform(features)] on the
    one-row feature array: a transform keeps the number of samples, so it
    gives one row of floats, or raises. *)
Definition scaler_handle : Type := list scalar -> result (list float).

(** A three-dimensional array. *)
Definition tensor : Type := list (list (list scalar)).

(** [np.tile(features, (reps, 1))]: the rows, [reps] times over. *)
Definition np_tile (features : ndarray) (reps : nat) : ndarray :=
  List.concat (repeat features reps).

(** [features.shape[1]]. *)
Definition shape_1 (features : ndarray) : nat :=
  match features with
  | [] => 0
  | row :: _ => List.length row
  end.

(** [n] consecutive chunks of [w] elements. *)
Fixpoint chunks {A : Type} (n w : nat) (l : list A) : list (list A) :=
  match n with
  | O => []
  | S n' => firstn w l :: chunks n' w (skipn w l)
  end.

(** [a.reshape(d0, d1, d2)]: the elements in row-major order, regrouped;
    [ValueError] when the sizes do not match. *)
Definition np_reshape (a : ndarray) (d0 d1 d2 : nat) : result tensor :=
  let flat := List.concat a in
  if (List.length flat =? d0 * d1 * d2)%nat
  then Ok (chunks d0 d1 (chunks (d0 * d1) d2 flat))
  else Raise ValueError.

(** The shape of a (rectangular) tensor. *)
Definition tensor_shape (t : tensor) : nat * nat * nat :=
  (List.length t, List.length (hd [] t), List.length (hd [] (hd [] t))).

(** The feature row in its canonical order, as written in the source. *)
Definition feature_row (input_data : MLPredictionInput) : list scalar :=
  [ PyFloat (temperature input_data);
    PyFloat (humidity input_data);
    PyFloat (populationDensity input_data);
    PyInt (previousCases input_data);
    PyFloat (wastewaterLevels input_data);
    PyFloat (socialMediaSentiment input_data) ].

(** [preprocess_input(input_data, sequence_length)]. *)
Definition preprocess_input (scaler : option scaler_handle)
    (input_data : MLPredictionInput) (sequence_length : nat) : result tensor :=
  let features := np_array [ feature_row input_data ] in
  features <-
    match scaler with
    | None => Ok features
    | Some sc => row <- sc (hd [] features) ;; Ok [ map PyFloat row ]
    end ;;
  let sequence := np_tile features sequence_length in
  np_reshape sequence 1 sequence_length (shape_1 features).

(** The default of the parameter [sequence_length]. *)
Definition default_sequence_length : nat := 7.

Section Handlers.

(** The built-in [hash] on strings (keyed per process by the interpreter). *)
Variable py_hash : string -> Z.

(** [simulate_prediction]: as in [main.py], but the confidence is the
    integer [min(95, 70 + hash(str(timestamp)) % 25)], which the float field
    of the response converts.  [%] with a positive modulus is never
    negative, as [Z.modulo]. *)
Definition simulate_prediction (input_data : MLPredictionInput)
  : result MLPredictionOutput :=
  pc <- float_of_int_r (previousCases input_data) ;;
  let risk := risk_level input_data pc in
  let cases := predicted_cases input_data pc in
  Ok {| riskLevel := risk;
        predictedCases := cases;
        confidence := Z2float (Z.min 95 (70 + py_hash (timestamp input_data) mod 25));
        featureImportance := feature_importance |}.

End Handlers.

Section Startup.

(** The handle of a loaded Keras model. *)
Variable keras_model : Type.

(** The module-level globals. *)
Record globals : Type := {
  lstm_model : option keras_model;
  optimization_model : option model_handle;
  scaler : option scaler_handle;
  model_info : ModelInfo
}.

Definition initial_globals : globals :=
  {| lstm_model := None;
     optimization_model := None;
     scaler := None;
     model_info := {| isLoaded := false; version := "1.0.0"; accuracy := 89.3;
                      lastTraining := "2024-01-01"; modelType := "LSTM" |} |}.

(** What start-up finds: the import flags, what the two loaders do on their
    paths (a missing file raises), and for the optimization model [None]
    when [os.path.exists] is false. *)
Record environment : Type := {
  TENSORFLOW_AVAILABLE : bool;
  SKLEARN_AVAILABLE : bool;
  lstm_model_path : result keras_model;
  scaler_path : result scaler_handle;
  optimization_model_path : option (result model_handle)
}.

(** [load_lstm_model]: the new globals and the returned flag. *)
Definition load_lstm_model (env : environment) (g : globals) : globals * bool :=
  if TENSORFLOW_AVAILABLE env then
    match lstm_model_path env with
    | Ok m =>
        ({| lstm_model := Some m;
            optimization_model := optimization_model g;
            scaler := scaler g;
            model_info := model_info g |}, true)
    | Raise _ => (g, false)
    end
  else (g, false).

(** [load_scaler]. *)
Definition load_scaler (env : environment) (g : globals) : globals * bool :=
  if SKLEARN_AVAILABLE env then
    match scaler_path env with
    | Ok sc =>
        ({| lstm_model := lstm_model g;
            optimization_model := optimization_model g;
            scaler := Some sc;
            model_info := model_info g |}, true)
    | Raise _ => (g, false)
    end
  else (g, false).

(** [startup_event]: every load is guarded by a handler of its own, so the
    outer handler is never reached. *)
Definition startup_event (env : environment) (g : globals) : globals :=
  let (g1, lstm_loaded) := load_lstm_model env g in
  let (g2, scaler_loaded) := load_scaler env g1 in
  let optimization_model' :=
    match optimization_model_path env with
    | Some (Ok m) => if SKLEARN_AVAILABLE env then Some m else optimization_model g2
    | _ => optimization_model g2
    end in
  {| lstm_model := lstm_model g2;
     optimization_model := optimization_model';
     scaler := scaler g2;
     model_info :=
       {| isLoaded := lstm_loaded || scaler_loaded;
          version := version (model_info g2);
          accuracy := accuracy (model_info g2);
          lastTraining := lastTraining (model_info g2);
          modelType := if lstm_loaded then "LSTM" else "Simulation" |} |}.

Definition get_model_info (g : globals) : ModelInfo := model_info g.

End Startup.

End MainLstm.

Arguments MainLstm.startup_event {keras_model} env g.
Arguments MainLstm.initial_globals {keras_model}.
Arguments MainLstm.model_info {keras_model} g.
Arguments MainLstm.optimization_model {keras_model} g.
Arguments MainLstm.get_model_info {keras_model} g.

(** ** backend/main-working.py *)

Module MainWorking.

(** [sum(xs) / len(xs)]: [ZeroDivisionError] on the empty list. *)
Definition average (xs : list float) : result float :=
  if (List.length xs =? 0)%nat then Raise ZeroDivisionError
  else Ok (sum xs / Z2float (Z.of_nat (List.length xs)))%float.

(** [optimize_resources]: the richer simulation; any exception of the body
    becomes [HTTPException(500, "Optimization failed")]. *)
Definition optimize_resources (input_data : OptimizationInput)
  : result OptimizationOutput :=
  try_except
    (let optimized_allocation :=
       [ ("beds", Z.min 100 (beds input_data + 5));
         ("nurses", Z.min 150 (nurses input_data + 10));
         ("doctors", Z.min 50 (doctors input_data + 2));
         ("equipment", Z.min 100 (equipment input_data + 3)) ]%string%Z in
     avg_wait_time <- average (currentWaitTimes input_data) ;;
     let wait_reduction := fmin 40 (fmax 15 (avg_wait_time * 0.3))%float in
     staff <- float_of_int_r (nurses input_data + doctors input_data) ;;
     bed_utilization <- float_of_int_r (Z.min 95 (beds input_data + 10)) ;;
     let expected_improvements :=
       [ ("waitTimeReduction", wait_reduction);
         ("bedUtilization", bed_utilization);
         ("staffEfficiency", fmin 25 (staff * 0.1)%float);
         ("patientSatisfaction", fmin 30 (wait_reduction * 0.8)%float) ]%string in
     Ok {| optimizedAllocation := optimized_allocation;
           expectedImprovements := expected_improvements;
           recommendations := fixed_recommendations |})
    (fun _ => Raise (HTTPException 500 "Optimization failed")).

End MainWorking.

(** ** The remaining handlers of backend/main-lstm.py and
    backend/main-working.py *)

(** The loop of [predict_batch] over a handler that keeps no state, and the
    handler around it; the text of [predict_batch] is the same in every
    variant of the backend. *)
Fixpoint batch_loop {A B : Type} (predict : A -> result B) (inputs : list A)
    (predictions : list B) : result (list B) :=
  match inputs with
  | [] => Ok predictions
  | input_data :: rest =>
      prediction <- predict input_data ;;
      batch_loop predict rest (predictions ++ [prediction])
  end.

Definition batch_handler {A B : Type} (predict : A -> result B)
    (inputs : list A) : result (list B) :=
  try_except (batch_loop predict inputs [])
    (fun _ => Raise (HTTPException 500 "Batch prediction failed")).

Module MainLstmApi.

(** What [lstm_model.predict(sequence, verbose=0)] returns: an array of
    rank 2 (batch, outputs) or of rank 3 (batch, timestep, outputs). *)
Inductive prediction : Type :=
| Rank2 (rows : list (list float))
| Rank3 (batches : list (list (list float))).

(** A loaded Keras model, seen through [predict]. *)
Definition keras_model : Type := MainLstm.tensor -> result prediction.

(** What [predict_with_lstm] can raise besides the exceptions of [exn]:
    its own [Exception("LSTM model not loaded")], and the [TypeError] of
    [float(a)] on an array [a] that does not hold exactly one element. *)
Inductive lstm_exn : Type :=
| NotLoaded
| NotAScalar
| Raised (e : exn).

Inductive attempt (A : Type) : Type :=
| Answer (a : A)
| Failure (e : lstm_exn).

Arguments Answer {A} a.
Arguments Failure {A} e.

Definition lift {A : Type} (r : result A) : attempt A :=
  match r with
  | Ok a => Answer a
  | Raise e => Failure (Raised e)
  end.

Definition and_then {A B : Type} (r : attempt A) (k : A -> attempt B) : attempt B :=
  match r with
  | Answer a => k a
  | Failure e => Failure e
  end.

Notation "x <~ e ;; k" := (and_then e (fun x => k))
  (at level 61, e at next level, right associativity).

(** [prediction[0, -1, :]]: the last timestep of the first batch element;
    [IndexError] when either axis is empty. *)
Definition last_timestep (batches : list (list (list float))) : result (list float) :=
  steps <- index batches 0 ;;
  match steps with
  | [] => Raise IndexError
  | _ :: _ => Ok (last steps [])
  end.

(** What the three reads index: the vector taken from a rank-3 output, or
    the rank-2 output itself, whose items are rows. *)
Inductive reading : Type :=
| Vector (v : list float)
| Matrix (rows : list (list float)).

(** [float(row)] on a one-dimensional array.  An array of no element or of
    several raises [TypeError] on every numpy release.  An array of exactly
    one element depends on the release installed: the older ones convert it
    to its element (with a deprecation warning from version 1.25 on), the
    newer ones (2.4 among them) raise [TypeError] for it as well.  The
    repository pins no release, so the behaviour of the installed one is the
    parameter [singleton_converts]. *)
Definition float_of_row (singleton_converts : bool) (row : list float)
    : attempt float :=
  match row with
  | [x] => if singleton_converts then Answer x else Failure NotAScalar
  | _ => Failure NotAScalar
  end.

(** [float(prediction[k]) if len(prediction) > k else default]. *)
Definition read (singleton_converts : bool) (p : reading) (k : nat)
    (default : float) : attempt float :=
  match p with
  | Vector v => Answer (item_or v k default)
  | Matrix rows =>
      match nth_error rows k with
      | Some row => float_of_row singleton_converts row
      | None => Answer default
      end
  end.

(** [predict_with_lstm]: its handler logs and raises the exception again. *)
Definition predict_with_lstm (singleton_converts : bool)
    (g : MainLstm.globals keras_model)
    (input_data : MLPredictionInput) : attempt MLPredictionOutput :=
  match MainLstm.lstm_model _ g with
  | None => Failure NotLoaded
  | Some model =>
      sequence <~ lift (MainLstm.preprocess_input (MainLstm.scaler _ g) input_data
                          MainLstm.default_sequence_length) ;;
      prediction <~ lift (model sequence) ;;
      p <~ match prediction with
           | Rank3 batches => v <~ lift (last_timestep batches) ;; Answer (Vector v)
           | Rank2 rows => Answer (Matrix rows)
           end ;;
      risk <~ read singleton_converts p 0 50.0%float ;;
      cases <~ read singleton_converts p 1 25.0%float ;;
      conf <~ read singleton_converts p 2 85.0%float ;;
      Answer {| riskLevel := fmin 100 (fmax 0 risk);
                predictedCases := fmax 0 cases;
                confidence := fmin 100 (fmax 0 conf);
                featureImportance := feature_importance |}
  end.

Section Handlers.

(** Whether the installed numpy converts a one-element array with
    [float()]. *)
Variable singleton_converts : bool.

Variable py_hash : string -> Z.
Variable np_mean : list float -> float.

(** The import flags of the process. *)
Variable TENSORFLOW_AVAILABLE : bool.
Variable SKLEARN_AVAILABLE : bool.

(** [predict_outbreak]: the handler of [except Exception] calls
    [simulate_prediction], unprotected. *)
Definition predict_outbreak (g : MainLstm.globals keras_model)
    (input_data : MLPredictionInput) : result MLPredictionOutput :=
  let tried :=
    if Main.is_not_None (MainLstm.lstm_model _ g) && TENSORFLOW_AVAILABLE
    then predict_with_lstm singleton_converts g input_data
    else lift (MainLstm.simulate_prediction py_hash input_data) in
  match tried with
  | Answer out => Ok out
  | Failure _ => MainLstm.simulate_prediction py_hash input_data
  end.

(** [optimize_resources]: the model branch and [simulate_optimization] have
    the text of [main.py]. *)
Definition optimize_resources (g : MainLstm.globals keras_model)
    (input_data : OptimizationInput) : result OptimizationOutput :=
  try_except
    (match MainLstm.optimization_model g with
     | Some model =>
         if SKLEARN_AVAILABLE
         then Main.optimize_with_model np_mean model input_data
         else Ok (Main.simulate_optimization input_data)
     | None => Ok (Main.simulate_optimization input_data)
     end)
    (fun _ => Ok (Main.simulate_optimization input_data)).

Definition predict_batch (g : MainLstm.globals keras_model)
    (inputs : list MLPredictionInput) : result (list MLPredictionOutput) :=
  batch_handler (predict_outbreak g) inputs.

End Handlers.

End MainLstmApi.

Module MainWorkingApi.

(** The module-level [model_info]. *)
Definition model_info : MainLstm.ModelInfo :=
  {| MainLstm.isLoaded := true;
     MainLstm.version := "1.0.0";
     MainLstm.accuracy := 89.3;
     MainLstm.lastTraining := "2024-01-01";
     MainLstm.modelType := "Simulation (LSTM Ready)" |}.

(** [startup_event]: only looks whether the two files exist. *)
Definition startup_event (lstm_model_exists scaler_exists : bool)
    (info : MainLstm.ModelInfo) : MainLstm.ModelInfo :=
  if lstm_model_exists then
    {| MainLstm.isLoaded := MainLstm.isLoaded info;
       MainLstm.version := MainLstm.version info;
       MainLstm.accuracy := MainLstm.accuracy info;
       MainLstm.lastTraining := MainLstm.lastTraining info;
       MainLstm.modelType := "LSTM Model Available" |}
  else info.

(** [predict_outbreak]: the enhanced simulation; any exception of the body
    becomes [HTTPException(500, "Prediction failed")]. *)
Definition predict_outbreak (input_data : MLPredictionInput)
  : result MLPredictionOutput :=
  try_except
    (pc <- float_of_int_r (previousCases input_data) ;;
     let risk :=
       fmin 100 (fmax 0
         (30 + (temperature input_data - 20) * 0.5 +
          (humidity input_data - 50) * 0.3 +
          pc * 0.8 +
          wastewaterLevels input_data * 0.6 +
          (socialMediaSentiment input_data - 0.5) * 20))%float in
     let cases :=
       fmax 0
         (pc * 1.1 +
          (populationDensity input_data / 1000) * 0.5 +
          (socialMediaSentiment input_data - 0.5) * 10 +
          (temperature input_data - 20) * 0.2)%float in
     let conf :=
       fmin 95 (fmax 70
         (85 - abs (temperature input_data - 25) * 0.5 -
          abs (humidity input_data - 60) * 0.3))%float in
     Ok {| riskLevel := risk;
           predictedCases := cases;
           confidence := conf;
           featureImportance := feature_importance |})
    (fun _ => Raise (HTTPException 500 "Prediction failed")).

Definition predict_batch (inputs : list MLPredictionInput)
  : result (list MLPredictionOutput) :=
  batch_handler predict_outbreak inputs.

End MainWorkingApi.

(** ** What the properties below speak about *)

(** The declared ranges of a prediction: risk and confidence in [0,100],
    cases non-negative (as float comparisons, so none of them is a NaN). *)
Definition within_bounds (o : MLPredictionOutput) : bool :=
  ((0 <=? riskLevel o) && (riskLevel o <=? 100) &&
   (0 <=? predictedCases o) &&
   (0 <=? confidence o) && (confidence o <=? 100))%float.

(** The range of a draw of [np.random.random()]: the half-open unit
    interval. *)
Definition unit_interval (u : float) : bool :=
  ((0 <=? u) && (u <? 1))%float.

(** [clamp(x, lo, hi)] in the words of the specification. *)
Definition clamp (x lo hi : float) : float := fmin hi (fmax lo x).

(** The request of [test_api.py]. *)
Definition example_input : MLPredictionInput :=
  {| temperature := 25.5;
     humidity := 60.0;
     populationDensity := 1500.0;
     previousCases := 20;
     wastewaterLevels := 45.0;
     socialMediaSentiment := 0.6;
     timestamp := "2024-01-01T12:00:00Z" |}.

Definition example_resources : OptimizationInput :=
  {| beds := 85; nurses := 120; doctors := 35; equipment := 90;
     currentWaitTimes := [78; 45; 62; 35; 41]%float;
     patientFlow := [120; 80; 90; 150; 60]%float |}.

(** A ward already above the bed ceiling. *)
Definition crowded_ward : OptimizationInput :=
  {| beds := 120; nurses := 120; doctors := 35; equipment := 90;
     currentWaitTimes := [78; 45; 62; 35; 41]%float;
     patientFlow := [120; 80; 90; 150; 60]%float |}.

(** A case count no float can hold. *)
Definition huge_count_input : MLPredictionInput :=
  {| temperature := 25.5;
     humidity := 60.0;
     populationDensity := 1500.0;
     previousCases := 2 ^ 1024;
     wastewaterLevels := 45.0;
     socialMediaSentiment := 0.6;
     timestamp := "2024-01-01T12:00:00Z" |}.

(** The second request of the batch in the test script. *)
Definition second_input : MLPredictionInput :=
  {| temperature := 22.0;
     humidity := 55.0;
     populationDensity := 1200.0;
     previousCases := 15;
     wastewaterLevels := 35.0;
     socialMediaSentiment := 0.5;
     timestamp := "2024-01-01T13:00:00Z" |}.

(** A field of the simulated allocation of [main.py]: the current count plus
    the increment, capped at the ceiling; within [0, ceiling]; and at least
    the current count when that count is within the ceiling. *)
Definition allocated (i : OptimizationInput) (field : string)
    (current increment ceiling : Z) : Prop :=
  exists v : Z,
    dict_get field (optimizedAllocation (Main.simulate_optimization i)) = Some v /\
    v = Z.min ceiling (current + increment) /\
    (0 <= v <= ceiling)%Z /\
    (current <= ceiling -> current <= v)%Z.

(** The feature vector in the canonical order of the specification, the
    case count as its nearest float. *)
Definition canonical_features (i : MLPredictionInput) : list float :=
  [ temperature i; humidity i; populationDensity i;
    Z2float (previousCases i); wastewaterLevels i; socialMediaSentiment i ].

(** A generator that alternates between two draws. *)
Definition alternating_random (b : bool) : float * bool :=
  ((if b then 0.25 else 0.75)%float, negb b).

(** A model whose raw output is outside every declared range. *)
Definition wild_model : model_handle :=
  fun _ => Ok [[ (-5)%float; nan; 1000000 ]]%float.

Definition wild_globals : Main.globals :=
  {| Main.outbreak_model := Some wild_model;
     Main.optimization_model := None;
     Main.model_info := Main.model_info Main.initial_globals |}.

(** The array [predict_outbreak] of [main.py] hands to the model. *)
Definition prediction_features (i : MLPredictionInput) : ndarray :=
  np_array
    [[ PyFloat (temperature i); PyFloat (humidity i);
       PyFloat (populationDensity i); PyInt (previousCases i);
       PyFloat (wastewaterLevels i); PyFloat (socialMediaSentiment i) ]].


(** What a load at start-up did. *)
Definition load_raised {A : Type} (p : option (result A)) : bool :=
  match p with Some (Raise _) => true | _ => false end.

Definition load_succeeded {A : Type} (p : option (result A)) : bool :=
  match p with Some (Ok _) => true | _ => false end.

(** The four fields of an allocation, each within its ceiling. *)
Definition allocation_within_ceilings (o : OptimizationOutput) : Prop :=
  exists b n d e : Z,
    optimizedAllocation o =
      [ ("beds", b); ("nurses", n); ("doctors", d); ("equipment", e) ]%string /\
    (0 <= b <= 100)%Z /\ (0 <= n <= 150)%Z /\
    (0 <= d <= 50)%Z /\ (0 <= e <= 100)%Z.

(** The keys of a [dict], in order. *)
Definition keys {V : Type} (d : dict V) : list string := map fst d.

(** A case count the simulation can multiply: it converts to a float. *)
Definition converts (i : MLPredictionInput) : bool :=
  match float_of_int (previousCases i) with Some _ => true | None => false end.

(** The globals of [main-lstm.py] with an LSTM model loaded and nothing
    else. *)
Definition lstm_globals (model : MainLstmApi.keras_model)
  : MainLstm.globals MainLstmApi.keras_model :=
  {| MainLstm.lstm_model := Some model;
     MainLstm.optimization_model := None;
     MainLstm.scaler := None;
     MainLstm.model_info :=
       MainLstm.model_info (@MainLstm.initial_globals MainLstmApi.keras_model) |}.

(** A model with a dense head of three outputs, one with a dense head of a
    single output, and one that returns a sequence of two timesteps. *)
Definition dense_model : MainLstmApi.keras_model :=
  fun _ => Ok (MainLstmApi.Rank2 [[ 60; 30; 90 ]]%float).

Definition single_output_model : MainLstmApi.keras_model :=
  fun _ => Ok (MainLstmApi.Rank2 [[ 60 ]]%float).

Definition sequence_model : MainLstmApi.keras_model :=
  fun _ => Ok (MainLstmApi.Rank3 [[ [10; 20; 30]; [60; 30; 90] ]]%float).

(** A batch run in the words of the specification: the single prediction
    applied to each input in order, each call starting from the generator
    state the previous one left. *)
Inductive batch_run {S : Type}
    (predict : MLPredictionInput -> S -> result MLPredictionOutput * S)
  : S -> list MLPredictionInput -> list MLPredictionOutput -> S -> Prop :=
| batch_run_nil (s : S) : batch_run predict s [] [] s
| batch_run_cons (s s1 s2 : S) (i : MLPredictionInput) (o : MLPredictionOutput)
    (rest : list MLPredictionInput) (outs : list MLPredictionOutput) :
    predict i s = (Ok o, s1) ->
    batch_run predict s1 rest outs s2 ->
    batch_run predict s (i :: rest) (o :: outs) s2.

(** The mantissa and exponent [binary_round_aux] reaches before it checks
    for overflow: truncate to the precision, round to nearest even, and
    truncate once more when the rounding carried into a new bit. *)
Definition round_pair (m e : Z) (l : location) : Z * Z :=
  let '(mrs', e') := shr_fexp prec emax m e l in
  let '(mrs'', e'') :=
    shr_fexp prec emax
      (round_nearest_even (shr_m mrs') (loc_of_shr_record mrs')) e' loc_Exact in
  (shr_m mrs'', e'').

(** * Facts about binary64 rounding

    The comparisons and operations of primitive floats are specified by
    [SpecFloat]; the facts needed here are that a comparison chain is
    transitive, that a product of non-negative factors is non-negative and
    that adding a non-negative term to a positive float never rounds below
    it. *)

Section Rounding.

Local Open Scope Z_scope.

Lemma digits2_pos_size (p : positive) : digits2_pos p = Pos.size p.
Proof. induction p; simpl; congruence. Qed.

Lemma Zdigits2_log2 (p : positive) : Zdigits2 (Zpos p) = Z.log2 (Zpos p) + 1.
Proof.
  unfold Zdigits2. rewrite digits2_pos_size.
  destruct p; simpl; lia.
Qed.

Lemma fexp_binary64 (e : Z) : fexp prec emax e = Z.max (e - 53) (-1074).
Proof. reflexivity. Qed.

Lemma shr_1_halves (r : shr_record) :
  0 <= shr_m r -> shr_m (shr_1 r) = Z.div2 (shr_m r).
Proof.
  destruct r as [m b s]; simpl; intros Hm.
  destruct m as [|[p|p|]|p]; simpl; try reflexivity; lia.
Qed.

Lemma iter_shr_1_shiftr (n : positive) :
  forall r, 0 <= shr_m r ->
    shr_m (iter_pos shr_1 n r) = Z.shiftr (shr_m r) (Zpos n).
Proof.
  induction n as [n IH|n IH|]; intros r Hr; simpl iter_pos.
  - assert (H1 : 0 <= shr_m (shr_1 r)).
    { rewrite shr_1_halves by assumption. rewrite Z.div2_spec.
      now apply Z.shiftr_nonneg. }
    assert (H2 : 0 <= shr_m (iter_pos shr_1 n (shr_1 r))).
    { rewrite IH by assumption. now apply Z.shiftr_nonneg. }
    rewrite IH by assumption. rewrite IH by assumption.
    rewrite shr_1_halves by assumption. rewrite Z.div2_spec.
    rewrite !Z.shiftr_shiftr by lia. f_equal. lia.
  - assert (H2 : 0 <= shr_m (iter_pos shr_1 n r)).
    { rewrite IH by assumption. now apply Z.shiftr_nonneg. }
    rewrite IH by assumption. rewrite IH by assumption.
    rewrite Z.shiftr_shiftr by lia. f_equal. lia.
  - rewrite shr_1_halves by assumption. now rewrite Z.div2_spec.
Qed.

Lemma shr_record_of_loc_m (m : Z) (l : location) :
  shr_m (shr_record_of_loc m l) = m.
Proof. destruct l as [|[]]; reflexivity. Qed.

(** One call of [shr_fexp] drops the low bits beyond the format's precision
    and raises the exponent by as much. *)
Lemma shr_fexp_shiftr (m e : Z) (l : location) :
  0 <= m ->
  let n := Z.max 0 (fexp prec emax (Zdigits2 m + e) - e) in
  shr_m (fst (shr_fexp prec emax m e l)) = Z.shiftr m n /\
  snd (shr_fexp prec emax m e l) = e + n.
Proof.
  intros Hm n. subst n. unfold shr_fexp, shr.
  destruct (fexp prec emax (Zdigits2 m + e) - e) as [|p|p] eqn:E;
    cbn [fst snd].
  - rewrite shr_record_of_loc_m. simpl. split; [reflexivity | lia].
  - rewrite iter_shr_1_shiftr by (rewrite shr_record_of_loc_m; assumption).
    rewrite shr_record_of_loc_m.
    replace (Z.max 0 (Z.pos p)) with (Z.pos p) by lia. split; reflexivity.
  - rewrite shr_record_of_loc_m.
    replace (Z.max 0 (Z.neg p)) with 0 by lia. simpl. split; [reflexivity | lia].
Qed.

Lemma round_nearest_even_bounds (m : Z) (l : location) :
  m <= round_nearest_even m l <= m + 1.
Proof. destruct l as [|[]]; simpl; try destruct (Z.even m); lia. Qed.

Lemma shiftr_ge_1 (a n : Z) : 0 < a -> 0 <= n <= Z.log2 a -> 1 <= Z.shiftr a n.
Proof.
  intros Ha Hn. rewrite Z.shiftr_div_pow2 by lia.
  assert (H2 : 2 ^ n <= a).
  { transitivity (2 ^ Z.log2 a).
    - apply Z.pow_le_mono_r; lia.
    - apply Z.log2_spec; lia. }
  assert (0 < 2 ^ n) by (apply Z.pow_pos_nonneg; lia).
  apply Z.div_le_lower_bound; lia.
Qed.

Lemma binary_round_aux_pair (s : bool) (m e : Z) (l : location) :
  binary_round_aux prec emax s m e l =
  match fst (round_pair m e l) with
  | Z0 => S754_zero s
  | Zpos p =>
      if snd (round_pair m e l) <=? emax - prec
      then S754_finite s p (snd (round_pair m e l))
      else S754_infinity s
  | Zneg _ => S754_nan
  end.
Proof.
  unfold binary_round_aux, round_pair.
  destruct (shr_fexp prec emax m e l) as [mrs' e'].
  destruct (shr_fexp prec emax _ e' loc_Exact) as [mrs'' e'']. reflexivity.
Qed.

Lemma round_pair_nonneg (m e : Z) (l : location) :
  0 <= m -> 0 <= fst (round_pair m e l).
Proof.
  intros Hm. unfold round_pair.
  destruct (shr_fexp_shiftr m e l Hm) as [H1 _].
  destruct (shr_fexp prec emax m e l) as [mrs' e']. cbn [fst] in H1.
  pose proof (round_nearest_even_bounds (shr_m mrs') (loc_of_shr_record mrs')) as Hr.
  assert (H0 : 0 <= shr_m mrs') by (rewrite H1; apply Z.shiftr_nonneg; assumption).
  set (m2 := round_nearest_even _ _) in *.
  assert (Hm2 : 0 <= m2) by lia.
  destruct (shr_fexp_shiftr m2 e' loc_Exact Hm2) as [H2 _].
  destruct (shr_fexp prec emax m2 e' loc_Exact) as [mrs'' e'']. cbn [fst] in *.
  rewrite H2. now apply Z.shiftr_nonneg.
Qed.

(** Rounding a non-negative mantissa gives a non-negative float, never a
    NaN. *)
Lemma binary_round_aux_nonneg (m e : Z) (l : location) :
  0 <= m ->
  SFleb (S754_zero false) (binary_round_aux prec emax false m e l) = true.
Proof.
  intros Hm. rewrite binary_round_aux_pair.
  pose proof (round_pair_nonneg m e l Hm) as H.
  destruct (fst (round_pair m e l)) as [|p|p]; try lia; try reflexivity.
  destruct (_ <=? _); reflexivity.
Qed.

Lemma bounded_canonical (mx : positive) (ex : Z) :
  bounded prec emax mx ex = true ->
  Z.max (Z.log2 (Zpos mx) + 1 + ex - 53) (-1074) = ex.
Proof.
  unfold bounded, canonical_mantissa. intros H.
  apply andb_true_iff in H as [H _]. apply Z.eqb_eq in H.
  rewrite fexp_binary64 in H.
  change (Z.pos (digits2_pos mx)) with (Zdigits2 (Zpos mx)) in H.
  rewrite Zdigits2_log2 in H. lia.
Qed.

(** The heart of the monotonicity of rounding: a value [M * 2^e] that is at
    least the representable [mx * 2^ex] rounds to a pair that is at least
    [(mx, ex)] in the order of canonical pairs. *)
Lemma round_pair_ge (mx : positive) (ex : Z) (M : positive) (e : Z) (l : location) :
  bounded prec emax mx ex = true ->
  e <= ex ->
  Zpos mx * 2 ^ (ex - e) <= Zpos M ->
  let r := round_pair (Zpos M) e l in
  0 < fst r /\ (ex < snd r \/ (ex = snd r /\ Zpos mx <= fst r)).
Proof.
  intros Hb He HM r. subst r.
  apply bounded_canonical in Hb.
  assert (Hlog : Z.log2 (Zpos mx) + (ex - e) <= Z.log2 (Zpos M)).
  { rewrite Z.add_comm, <- Z.log2_mul_pow2 by lia. apply Z.log2_le_mono. lia. }
  assert (HlM : 0 <= Z.log2 (Zpos M)) by apply Z.log2_nonneg.
  assert (Hlx : 0 <= Z.log2 (Zpos mx)) by apply Z.log2_nonneg.
  unfold round_pair.
  destruct (shr_fexp_shiftr (Zpos M) e l ltac:(lia)) as [H1 H1e].
  destruct (shr_fexp prec emax (Zpos M) e l) as [mrs' e'].
  cbn [fst snd] in H1, H1e.
  rewrite Zdigits2_log2, fexp_binary64 in H1, H1e.
  set (f1 := Z.max (Z.log2 (Zpos M) + 1 + e - 53) (-1074)) in *.
  assert (Hf1 : ex <= f1) by (unfold f1; lia).
  replace (Z.max 0 (f1 - e)) with (f1 - e) in * by lia.
  assert (He' : e' = f1) by lia. clear H1e. subst e'.
  assert (Hm1 : 1 <= shr_m mrs').
  { rewrite H1. apply shiftr_ge_1; [lia|]. unfold f1. lia. }
  pose proof (round_nearest_even_bounds (shr_m mrs') (loc_of_shr_record mrs')) as Hr.
  set (m2 := round_nearest_even _ _) in *.
  destruct (shr_fexp_shiftr m2 f1 loc_Exact ltac:(lia)) as [H2 H2e].
  destruct (shr_fexp prec emax m2 f1 loc_Exact) as [mrs'' e''].
  cbn [fst snd] in H2, H2e |- *.
  assert (Hd2 : exists p2, m2 = Zpos p2) by (destruct m2 as [|p2|p2]; try lia; eauto).
  destruct Hd2 as [p2 Hp2]. rewrite Hp2 in H2, H2e.
  rewrite Zdigits2_log2, fexp_binary64 in H2, H2e. rewrite <- Hp2 in H2, H2e.
  assert (Hl2 : 0 <= Z.log2 m2) by apply Z.log2_nonneg.
  set (n2 := Z.max 0 (Z.max (Z.log2 m2 + 1 + f1 - 53) (-1074) - f1)) in *.
  assert (Hn2 : 0 <= n2 <= Z.log2 m2) by (unfold n2, f1; lia).
  split.
  - rewrite H2. pose proof (shiftr_ge_1 m2 n2 ltac:(lia) Hn2). lia.
  - destruct (Z.eq_dec e'' ex) as [Heq|Hne]; [right|left; lia].
    assert (n2 = 0) by lia. assert (f1 = ex) by lia.
    split; [lia|]. rewrite H2, H. rewrite Z.shiftr_0_r.
    assert (Zpos mx <= shr_m mrs'); [|lia].
    rewrite H1, H0. rewrite Z.shiftr_div_pow2 by lia.
    apply Z.div_le_lower_bound; [apply Z.pow_pos_nonneg; lia | lia].
Qed.

Lemma SFleb_round_ge (mx : positive) (ex : Z) (M : positive) (e : Z) (l : location) :
  bounded prec emax mx ex = true ->
  e <= ex ->
  Zpos mx * 2 ^ (ex - e) <= Zpos M ->
  SFleb (S754_finite false mx ex)
        (binary_round_aux prec emax false (Zpos M) e l) = true.
Proof.
  intros Hb He HM. rewrite binary_round_aux_pair.
  destruct (round_pair_ge mx ex M e l Hb He HM) as [Hpos Hcmp].
  destruct (fst (round_pair (Zpos M) e l)) as [|p|p]; try lia.
  destruct (_ <=? _); [|reflexivity].
  unfold SFleb, SFcompare.
  destruct Hcmp as [Hlt | [Heq Hle]].
  - apply Z.compare_lt_iff in Hlt. rewrite Hlt. reflexivity.
  - rewrite <- Heq, Z.compare_refl.
    change (Pos.compare_cont Eq mx p) with (Pos.compare mx p).
    destruct (Pos.compare_spec mx p); try reflexivity. lia.
Qed.

Lemma iter_xO_pow2 (m d : positive) :
  Zpos (Pos.iter xO m d) = Zpos m * 2 ^ Zpos d.
Proof.
  induction d as [|d IH] using Pos.peano_ind.
  - simpl. lia.
  - rewrite Pos.iter_succ, Pos2Z.inj_xO, IH, Pos2Z.inj_succ, Z.pow_succ_r by lia.
    lia.
Qed.

Lemma shl_align_fst (m : positive) (e e' : Z) :
  e' <= e -> Zpos (fst (shl_align m e e')) = Zpos m * 2 ^ (e - e').
Proof.
  intros H. unfold shl_align.
  destruct (e' - e) as [|d|d] eqn:E; cbn [fst].
  - replace (e - e') with 0 by lia. lia.
  - lia.
  - rewrite iter_xO_pow2. f_equal. f_equal. lia.
Qed.

(** The sum of two positive finite floats is at least the first one. *)
Lemma SFadd_pos_ge (mx : positive) (ex : Z) (my : positive) (ey : Z) :
  bounded prec emax mx ex = true ->
  SFleb (S754_finite false mx ex)
        (SF64add (S754_finite false mx ex) (S754_finite false my ey)) = true.
Proof.
  intros Hb. unfold SF64add, SFadd. cbv zeta.
  set (ez := Z.min ex ey).
  assert (Hx := shl_align_fst mx ex ez ltac:(unfold ez; lia)).
  assert (Hy := shl_align_fst my ey ez ltac:(unfold ez; lia)).
  set (a := fst (shl_align mx ex ez)) in *.
  set (b := fst (shl_align my ey ez)) in *.
  unfold cond_Zopp. change (Z.pos a + Z.pos b) with (Z.pos (a + b)).
  unfold binary_normalize, binary_round.
  change (Z.pos (digits2_pos (a + b))) with (Zdigits2 (Zpos (a + b))).
  assert (HM : Zpos mx * 2 ^ (ex - ez) <= Zpos (a + b)) by lia.
  assert (Hez : ez <= ex) by (unfold ez; lia).
  assert (Hal : shl_align (a + b) ez
                  (fexp prec emax (Zdigits2 (Zpos (a + b)) + ez))
                = ((a + b)%positive, ez)).
  { unfold shl_align. rewrite Zdigits2_log2, fexp_binary64.
    apply bounded_canonical in Hb.
    assert (Hlog : Z.log2 (Zpos mx) + (ex - ez) <= Z.log2 (Zpos (a + b))).
    { rewrite Z.add_comm, <- Z.log2_mul_pow2
        by (try apply Z.log2_nonneg; lia).
      apply Z.log2_le_mono. lia. }
    destruct (Z.max _ _ - ez) as [|d|d] eqn:E; try reflexivity. lia. }
  rewrite Hal. now apply SFleb_round_ge.
Qed.

Lemma SFltb_leb (a b : spec_float) : SFltb a b = true -> SFleb a b = true.
Proof. unfold SFltb, SFleb. destruct (SFcompare a b) as [[]|]; congruence. Qed.

Lemma SFleb_refl_finite (s : bool) (m : positive) (e : Z) :
  SFleb (S754_finite s m e) (S754_finite s m e) = true.
Proof.
  unfold SFleb, SFcompare. rewrite Z.compare_refl.
  change (Pos.compare_cont Eq m m) with (Pos.compare m m).
  rewrite Pos.compare_refl. destruct s; reflexivity.
Qed.

Lemma SFleb_trans (a b c : spec_float) :
  SFleb a b = true -> SFleb b c = true -> SFleb a c = true.
Proof.
  unfold SFleb, SFcompare.
  destruct a as [sa|sa| |sa ma ea], b as [sb|sb| |sb mb eb],
           c as [sc|sc| |sc mc ec];
    try destruct sa; try destruct sb; try destruct sc;
    try congruence; try reflexivity;
    change (Pos.compare_cont Eq ?x ?y) with (Pos.compare x y);
    repeat match goal with
    | |- context [Z.compare ?x ?y] => destruct (Z.compare_spec x y)
    | |- context [Pos.compare ?x ?y] => destruct (Pos.compare_spec x y)
    end; simpl; try congruence; try reflexivity; try lia.
Qed.

End Rounding.

(** ** The same facts on primitive floats *)

Section FloatOrder.

Local Open Scope float_scope.

Lemma fltb_leb (a b : float) : (a <? b) = true -> (a <=? b) = true.
Proof. rewrite ltb_spec, leb_spec. apply SFltb_leb. Qed.

Lemma fleb_trans (a b c : float) :
  (a <=? b) = true -> (b <=? c) = true -> (a <=? c) = true.
Proof. rewrite !leb_spec. apply SFleb_trans. Qed.

Lemma fmul_nonneg (a b : float) (mb : positive) (eb : Z) :
  Prim2SF b = S754_finite false mb eb ->
  (0 <=? a) = true -> (0 <=? a * b) = true.
Proof.
  intros Hb. rewrite !leb_spec, mul_spec, Hb.
  change (Prim2SF 0) with (S754_zero false).
  unfold SF64mul, SFmul.
  destruct (Prim2SF a) as [s|s| |s m e]; try destruct s;
    try (intros; discriminate); intros _; try reflexivity.
  simpl xorb. apply binary_round_aux_nonneg. lia.
Qed.

Lemma fadd_nonneg_ge (x p : float) (mx : positive) (ex : Z) :
  Prim2SF x = S754_finite false mx ex ->
  (0 <=? p) = true -> (x <=? x + p) = true.
Proof.
  intros Hx. pose proof (Prim2SF_valid x) as Hv. rewrite Hx in Hv. simpl in Hv.
  rewrite !leb_spec, add_spec, Hx.
  change (Prim2SF 0) with (S754_zero false).
  destruct (Prim2SF p) as [s|s| |s m e]; try destruct s;
    try (intros; discriminate); intros _.
  - apply SFleb_refl_finite.
  - apply SFleb_refl_finite.
  - reflexivity.
  - now apply SFadd_pos_ge.
Qed.

(** [max(a, b)] is at least its first argument, [min(a, b)] at most. *)
Lemma fmax_ge_l (a b : float) : (a <=? a) = true -> (a <=? fmax a b) = true.
Proof.
  unfold fmax. destruct (a <? b) eqn:E; [intros _; now apply fltb_leb | auto].
Qed.

Lemma fmin_le_l (a b : float) : (a <=? a) = true -> (fmin a b <=? a) = true.
Proof.
  unfold fmin. destruct (b <? a) eqn:E; [intros _; now apply fltb_leb | auto].
Qed.

Lemma fmin_ge (c a b : float) :
  (c <=? a) = true -> (c <=? b) = true -> (c <=? fmin a b) = true.
Proof. unfold fmin. destruct (b <? a); auto. Qed.

(** [min(100, max(0, x))] lies in [0,100] whatever [x] is, NaN and the
    infinities included. *)
Lemma clamp_percent (x : float) :
  (0 <=? fmin 100 (fmax 0 x)) = true /\ (fmin 100 (fmax 0 x) <=? 100) = true.
Proof.
  split.
  - apply fmin_ge; [reflexivity | apply fmax_ge_l; reflexivity].
  - apply fmin_le_l. reflexivity.
Qed.

(** [min(95, 70 + u * 25)] lies in [70,95] for every non-negative draw. *)
Lemma confidence_of_draw (u : float) :
  (0 <=? u) = true ->
  (70 <=? fmin 95 (70 + u * 25)) = true /\
  (fmin 95 (70 + u * 25) <=? 95) = true.
Proof.
  intros Hu. split.
  - apply fmin_ge; [reflexivity|].
    apply (fadd_nonneg_ge 70 (u * 25) 4925812092436480 (-46)); [reflexivity|].
    apply (fmul_nonneg u 25 7036874417766400 (-48)); [reflexivity | assumption].
  - apply fmin_le_l. reflexivity.
Qed.

End FloatOrder.

(** * backend/main.py: single predictions *)

Lemma alternating_random_unit (b : bool) :
  unit_interval (fst (alternating_random b)) = true.
Proof. destruct b; reflexivity. Qed.

Lemma within_bounds_intro (r c k : float) (fi : dict float) :
  (0 <=? r)%float = true -> (r <=? 100)%float = true ->
  (0 <=? c)%float = true ->
  (0 <=? k)%float = true -> (k <=? 100)%float = true ->
  within_bounds {| riskLevel := r; predictedCases := c; confidence := k;
                   featureImportance := fi |} = true.
Proof.
  intros H1 H2 H3 H4 H5. unfold within_bounds. cbn [riskLevel predictedCases confidence].
  now rewrite H1, H2, H3, H4, H5.
Qed.

(** The model branch clamps whatever the model returned. *)
Lemma predict_with_model_within_bounds (model : model_handle)
    (i : MLPredictionInput) (o : MLPredictionOutput) :
  Main.predict_with_model model i = Ok o -> within_bounds o = true.
Proof.
  unfold Main.predict_with_model, bind.
  destruct (model _) as [prediction|e]; [|discriminate].
  destruct (index prediction 0) as [row|e]; [|discriminate].
  intros H. injection H as <-.
  apply within_bounds_intro;
    try apply clamp_percent; apply fmax_ge_l; reflexivity.
Qed.

Section Prediction.

Variable rng_state : Type.
Variable np_random : rng_state -> float * rng_state.

Lemma simulate_prediction_returns (i : MLPredictionInput) (s : rng_state)
    (pc : float) :
  float_of_int (previousCases i) = Some pc ->
  Main.simulate_prediction np_random i s =
    (Ok {| riskLevel := risk_level i pc;
           predictedCases := predicted_cases i pc;
           confidence := fmin 95 (70 + fst (np_random s) * 25)%float;
           featureImportance := feature_importance |},
     snd (np_random s)).
Proof.
  intros H. unfold Main.simulate_prediction. rewrite H.
  destruct (np_random s) as [u s']. reflexivity.
Qed.

Lemma simulate_prediction_raises (i : MLPredictionInput) (s : rng_state) :
  float_of_int (previousCases i) = None ->
  Main.simulate_prediction np_random i s = (Raise OverflowError, s).
Proof. intros H. unfold Main.simulate_prediction. now rewrite H. Qed.

(** The attempt of [predict_outbreak] leaves the generator alone unless
    the simulation answered. *)
Lemma predict_outbreak_cases (g : Main.globals) (i : MLPredictionInput)
    (s : rng_state) :
  (exists o, Main.predict_outbreak np_random g i s = (Ok o, s) /\
             exists model, Main.outbreak_model g = Some model /\
                           Main.predict_with_model model i = Ok o) \/
  Main.predict_outbreak np_random g i s = Main.simulate_prediction np_random i s.
Proof.
  unfold Main.predict_outbreak.
  destruct (Main.outbreak_model g) as [model|].
  - destruct (Main.predict_with_model model i) as [o|e] eqn:E.
    + left. exists o. split; [reflexivity | eauto].
    + right. reflexivity.
  - right. destruct (float_of_int (previousCases i)) as [pc|] eqn:E.
    + rewrite (simulate_prediction_returns i s pc E). reflexivity.
    + rewrite (simulate_prediction_raises i s E).
      now rewrite (simulate_prediction_raises i s E).
Qed.

(** The limit of the simulation: a case count no float can hold makes the
    product with 0.8 raise, in the handler's fallback as well. *)
Lemma predict_outbreak_overflow (g : Main.globals) (i : MLPredictionInput)
    (s : rng_state) :
  Main.outbreak_model g = None ->
  float_of_int (previousCases i) = None ->
  Main.predict_outbreak np_random g i s = (Raise OverflowError, s).
Proof.
  intros Hnone Hpc. unfold Main.predict_outbreak. rewrite Hnone.
  now rewrite !(simulate_prediction_raises i s Hpc).
Qed.

Hypothesis np_random_unit : forall s, unit_interval (fst (np_random s)) = true.

Lemma draw_nonneg (s : rng_state) : (0 <=? fst (np_random s))%float = true.
Proof.
  pose proof (np_random_unit s) as H. unfold unit_interval in H.
  now apply andb_true_iff in H.
Qed.

Lemma simulated_confidence_range (s : rng_state) :
  (70 <=? fmin 95 (70 + fst (np_random s) * 25))%float = true /\
  (fmin 95 (70 + fst (np_random s) * 25) <=? 95)%float = true.
Proof. apply confidence_of_draw, draw_nonneg. Qed.

Lemma simulate_prediction_within_bounds (i : MLPredictionInput)
    (s s' : rng_state) (o : MLPredictionOutput) :
  Main.simulate_prediction np_random i s = (Ok o, s') -> within_bounds o = true.
Proof.
  destruct (float_of_int (previousCases i)) as [pc|] eqn:E.
  - rewrite (simulate_prediction_returns i s pc E). intros H. injection H as <- _.
    destruct (simulated_confidence_range s) as [Hlo Hhi].
    apply within_bounds_intro.
    + apply clamp_percent.
    + apply clamp_percent.
    + apply fmax_ge_l. reflexivity.
    + apply (fleb_trans 0 70); [reflexivity | exact Hlo].
    + apply (fleb_trans _ 95); [exact Hhi | reflexivity].
  - rewrite (simulate_prediction_raises i s E). discriminate.
Qed.

Lemma predict_outbreak_sound (g : Main.globals) (i : MLPredictionInput)
    (s s' : rng_state) (o : MLPredictionOutput) :
  Main.predict_outbreak np_random g i s = (Ok o, s') -> within_bounds o = true.
Proof.
  destruct (predict_outbreak_cases g i s) as [(o' & H & model & _ & Hm) | H];
    rewrite H; intros Heq.
  - injection Heq as <- _. eapply predict_with_model_within_bounds; eauto.
  - eapply simulate_prediction_within_bounds; eauto.
Qed.

Lemma predict_outbreak_returns (g : Main.globals) (i : MLPredictionInput)
    (s : rng_state) (pc : float) :
  float_of_int (previousCases i) = Some pc ->
  exists o s', Main.predict_outbreak np_random g i s = (Ok o, s').
Proof.
  intros Hpc.
  destruct (predict_outbreak_cases g i s) as [(o' & H & _) | H]; rewrite H.
  - eauto.
  - rewrite (simulate_prediction_returns i s pc Hpc). eauto.
Qed.

(** C1.  Whatever model is loaded (or none), and whatever that model
    returns, a prediction that [predict_outbreak] returns has its risk level
    and confidence in [0,100] and its predicted cases non-negative; and it
    does return one for every input whose case count converts to a float. *)
Theorem predict_outbreak_within_bounds (g : Main.globals)
    (i : MLPredictionInput) (s : rng_state) (pc : float) :
  float_of_int (previousCases i) = Some pc ->
  exists o s',
    Main.predict_outbreak np_random g i s = (Ok o, s') /\
    within_bounds o = true.
Proof.
  intros Hpc.
  destruct (predict_outbreak_returns g i s pc Hpc) as (o & s' & H).
  exists o, s'. split; [exact H | exact (predict_outbreak_sound g i s s' o H)].
Qed.

End Prediction.

Lemma predict_outbreak_within_bounds_witness :
  exists o s',
    Main.predict_outbreak alternating_random wild_globals example_input true
      = (Ok o, s') /\
    within_bounds o = true.
Proof.
  apply (predict_outbreak_within_bounds bool alternating_random
           alternating_random_unit wild_globals example_input true 20%float).
  reflexivity.
Defined.

(** * The simulation formulas *)

Section Simulation.

Variable rng_state : Type.
Variable np_random : rng_state -> float * rng_state.

(** C2.  With no predictive model loaded, [predict_outbreak] answers with
    the simulation: the risk level is the clamped linear formula and the
    predicted cases the floored one, computed in binary64; on the request of
    the test script they are exactly 78.75 and 23.75. *)
Theorem predict_outbreak_simulation_formulas (g : Main.globals) (s : rng_state) :
  Main.outbreak_model g = None ->
  (forall (i : MLPredictionInput) (pc : float),
      float_of_int (previousCases i) = Some pc ->
      exists o s',
        Main.predict_outbreak np_random g i s = (Ok o, s') /\
        riskLevel o =
          clamp (30 + (temperature i - 20) * 0.5 + (humidity i - 50) * 0.3 +
                 pc * 0.8 + wastewaterLevels i * 0.6) 0 100 /\
        predictedCases o =
          fmax 0 (pc * 1.1 + (populationDensity i / 1000) * 0.5 +
                  (socialMediaSentiment i - 0.5) * 10))%float /\
  (exists o s',
      Main.predict_outbreak np_random g example_input s = (Ok o, s') /\
      riskLevel o = 78.75%float /\
      predictedCases o = 23.75%float).
Proof.
  intros Hnone.
  assert (Hsim : forall i, Main.predict_outbreak np_random g i s =
                           Main.simulate_prediction np_random i s).
  { intros i. destruct (predict_outbreak_cases rng_state np_random g i s)
      as [(o & _ & model & Hm & _) | H]; [congruence | exact H]. }
  split.
  - intros i pc Hpc. rewrite Hsim.
    rewrite (simulate_prediction_returns rng_state np_random i s pc Hpc).
    eexists. eexists. split; [reflexivity|]. split; reflexivity.
  - rewrite Hsim.
    rewrite (simulate_prediction_returns rng_state np_random example_input s 20%float)
      by reflexivity.
    eexists. eexists. split; [reflexivity|]. split; reflexivity.
Qed.

End Simulation.

Lemma predict_outbreak_simulation_formulas_witness :
  exists o s',
    Main.predict_outbreak alternating_random Main.initial_globals example_input true
      = (Ok o, s') /\
    riskLevel o = 78.75%float /\
    predictedCases o = 23.75%float.
Proof.
  apply (predict_outbreak_simulation_formulas bool alternating_random
           Main.initial_globals true).
  reflexivity.
Defined.

(** * Reproducibility of the simulation *)

Lemma hashed_confidence_range (h : Z) :
  (70 <=? Z2float (Z.min 95 (70 + h mod 25)))%float = true /\
  (Z2float (Z.min 95 (70 + h mod 25)) <=? 95)%float = true.
Proof.
  assert (Hr : (0 <= h mod 25 < 25)%Z) by (apply Z.mod_pos_bound; lia).
  set (r := (h mod 25)%Z) in *.
  rewrite <- (Z2Nat.id r) by lia.
  assert (Hn : (Z.to_nat r < 25)%nat) by lia.
  set (n := Z.to_nat r) in *. clearbody n. clear Hr r.
  do 25 (destruct n as [|n]; [split; vm_compute; reflexivity|]).
  lia.
Qed.

(** C3, as stated, fails on [main.py]: two successive calls on the request
    of the test script return different confidence values. *)
Lemma simulate_prediction_confidence_differs :
  exists o1 o2 s1 s2,
    Main.simulate_prediction alternating_random example_input true = (Ok o1, s1) /\
    Main.simulate_prediction alternating_random example_input s1 = (Ok o2, s2) /\
    confidence o1 <> confidence o2.
Proof.
  eexists. eexists. eexists. eexists.
  split; [reflexivity|]. split; [reflexivity|].
  cbn [confidence]. intros H.
  apply (f_equal (fun x => (x <? 80)%float)) in H.
  vm_compute in H. discriminate.
Qed.

Section Reproducibility.

Variable rng_state : Type.
Variable np_random : rng_state -> float * rng_state.
Hypothesis np_random_unit : forall s, unit_interval (fst (np_random s)) = true.
Variable py_hash : string -> Z.

(** C3, amended.  In [main-lstm.py] the simulation is a function of the
    request and of [py_hash], the string hash of the running process (the
    interpreter keys it per process, so the statement is about calls within
    one process): its confidence is [70 + hash(timestamp) mod 25], between
    70 and 95.  In [main.py] the risk level, the predicted cases and the
    feature importance are functions of the request, while the confidence is
    [min(95, 70 + u * 25)] for the draw [u] of the generator: it lies between
    70 and 95, and two calls whose draws are equal return the same output. *)
Theorem simulation_reproducible_up_to_draw (i : MLPredictionInput) (pc : float) :
  float_of_int (previousCases i) = Some pc ->
  (exists o,
      MainLstm.simulate_prediction py_hash i = Ok o /\
      riskLevel o = risk_level i pc /\
      predictedCases o = predicted_cases i pc /\
      confidence o = Z2float (Z.min 95 (70 + py_hash (timestamp i) mod 25)) /\
      featureImportance o = feature_importance /\
      (70 <=? confidence o)%float = true /\
      (confidence o <=? 95)%float = true) /\
  (forall s : rng_state,
      exists o,
        Main.simulate_prediction np_random i s = (Ok o, snd (np_random s)) /\
        riskLevel o = risk_level i pc /\
        predictedCases o = predicted_cases i pc /\
        confidence o = fmin 95 (70 + fst (np_random s) * 25)%float /\
        featureImportance o = feature_importance /\
        (70 <=? confidence o)%float = true /\
        (confidence o <=? 95)%float = true) /\
  (forall (s1 s2 : rng_state) (o1 o2 : MLPredictionOutput),
      fst (Main.simulate_prediction np_random i s1) = Ok o1 ->
      fst (Main.simulate_prediction np_random i s2) = Ok o2 ->
      riskLevel o1 = riskLevel o2 /\
      predictedCases o1 = predictedCases o2 /\
      featureImportance o1 = featureImportance o2 /\
      (fst (np_random s1) = fst (np_random s2) -> o1 = o2)).
Proof.
  intros Hpc. split; [|split].
  - unfold MainLstm.simulate_prediction, float_of_int_r. rewrite Hpc.
    cbn [bind]. eexists. split; [reflexivity|].
    cbn [riskLevel predictedCases confidence featureImportance].
    repeat (split; [reflexivity|]). apply hashed_confidence_range.
  - intros s. rewrite (simulate_prediction_returns rng_state np_random i s pc Hpc).
    eexists. split; [reflexivity|].
    cbn [riskLevel predictedCases confidence featureImportance].
    repeat (split; [reflexivity|]).
    apply (simulated_confidence_range rng_state np_random np_random_unit).
  - intros s1 s2 o1 o2.
    rewrite !(simulate_prediction_returns rng_state np_random i _ pc Hpc).
    cbn [fst]. intros H1 H2. injection H1 as <-. injection H2 as <-.
    cbn [riskLevel predictedCases featureImportance].
    repeat (split; [reflexivity|]). intros Hu. now rewrite Hu.
Qed.

End Reproducibility.

Lemma simulation_reproducible_up_to_draw_witness :
  exists o,
    MainLstm.simulate_prediction (fun _ => 12345%Z) example_input = Ok o /\
    (70 <=? confidence o)%float = true.
Proof.
  destruct (simulation_reproducible_up_to_draw bool alternating_random
              alternating_random_unit (fun _ => 12345%Z) example_input 20%float
              eq_refl) as [(o & H & _ & _ & _ & _ & Hlo & _) _].
  exists o. split; assumption.
Defined.

(** * backend/main.py: batches *)

Lemma batch_run_length {S : Type}
    (predict : MLPredictionInput -> S -> result MLPredictionOutput * S)
    (s s' : S) (inputs : list MLPredictionInput) (outs : list MLPredictionOutput) :
  batch_run predict s inputs outs s' -> List.length outs = List.length inputs.
Proof. induction 1; simpl; congruence. Qed.

(** The k-th output is what the single prediction returned on the k-th
    input. *)
Lemma batch_run_nth {S : Type}
    (predict : MLPredictionInput -> S -> result MLPredictionOutput * S)
    (s s' : S) (inputs : list MLPredictionInput) (outs : list MLPredictionOutput) :
  batch_run predict s inputs outs s' ->
  forall (k : nat) (i : MLPredictionInput),
    nth_error inputs k = Some i ->
    exists o sk sk', nth_error outs k = Some o /\ predict i sk = (Ok o, sk').
Proof.
  induction 1 as [s|s s1 s2 i0 o0 rest outs Hp Hrun IH]; intros k i Hk.
  - destruct k; discriminate.
  - destruct k as [|k]; simpl in Hk.
    + injection Hk as <-. exists o0, s, s1. split; [reflexivity | assumption].
    + exact (IH k i Hk).
Qed.

Lemma batch_run_Forall {S : Type}
    (predict : MLPredictionInput -> S -> result MLPredictionOutput * S)
    (P : MLPredictionOutput -> Prop) :
  (forall i s o s', predict i s = (Ok o, s') -> P o) ->
  forall s inputs outs s', batch_run predict s inputs outs s' -> Forall P outs.
Proof.
  intros HP s inputs outs s' Hrun.
  induction Hrun; constructor; eauto.
Qed.

Section Batch.

Variable rng_state : Type.
Variable np_random : rng_state -> float * rng_state.
Variable g : Main.globals.

(** The loop appends the outputs of a run to what it had collected. *)
Lemma predict_loop_run (inputs : list MLPredictionInput)
    (outs : list MLPredictionOutput) (s s' : rng_state) :
  batch_run (Main.predict_outbreak np_random g) s inputs outs s' ->
  forall acc, Main.predict_loop np_random g inputs acc s = (Ok (acc ++ outs), s').
Proof.
  induction 1 as [s|s s1 s2 i o rest outs Hp Hrun IH]; intros acc; simpl.
  - now rewrite app_nil_r.
  - rewrite Hp, IH, <- app_assoc. reflexivity.
Qed.

(** The loop stops at the first item whose prediction raises. *)
Lemma predict_loop_raise (pre post : list MLPredictionInput)
    (i : MLPredictionInput) (outs : list MLPredictionOutput)
    (s s1 s2 : rng_state) (e : exn) :
  batch_run (Main.predict_outbreak np_random g) s pre outs s1 ->
  Main.predict_outbreak np_random g i s1 = (Raise e, s2) ->
  forall acc,
    Main.predict_loop np_random g (pre ++ i :: post) acc s = (Raise e, s2).
Proof.
  induction 1 as [s|s s1 s3 i0 o rest outs Hp Hrun IH]; intros Hi acc; simpl.
  - now rewrite Hi.
  - rewrite Hp. now apply IH.
Qed.

Lemma batch_run_total (inputs : list MLPredictionInput) :
  Forall (fun i => float_of_int (previousCases i) <> None) inputs ->
  forall s, exists outs s',
    batch_run (Main.predict_outbreak np_random g) s inputs outs s'.
Proof.
  induction 1 as [|i rest Hi _ IH]; intros s.
  - exists [], s. constructor.
  - destruct (float_of_int (previousCases i)) as [pc|] eqn:E; [|congruence].
    destruct (predict_outbreak_returns rng_state np_random g i s pc E)
      as (o & s1 & Ho).
    destruct (IH s1) as (outs & s2 & Hrun).
    exists (o :: outs), s2. econstructor; eauto.
Qed.

(** C7.  When the prediction of an item raises (the items before it having
    been answered), [predict_batch] raises the one batch-level error and
    returns no list at all. *)
Theorem predict_batch_fails_as_a_whole (pre post : list MLPredictionInput)
    (i : MLPredictionInput) (outs : list MLPredictionOutput)
    (s s1 s2 : rng_state) (e : exn) :
  batch_run (Main.predict_outbreak np_random g) s pre outs s1 ->
  Main.predict_outbreak np_random g i s1 = (Raise e, s2) ->
  Main.predict_batch np_random g (pre ++ i :: post) s =
    (Raise (HTTPException 500 "Batch prediction failed"), s2).
Proof.
  intros Hrun Hi. unfold Main.predict_batch.
  now rewrite (predict_loop_raise pre post i outs s s1 s2 e Hrun Hi []).
Qed.

Hypothesis np_random_unit : forall s, unit_interval (fst (np_random s)) = true.

(** C6.  On inputs whose case counts convert to floats, [predict_batch]
    returns as many outputs as inputs, in the order of the inputs: the k-th
    output is the answer of [predict_outbreak] on the k-th input (from the
    generator state the items before it left), within the declared
    ranges. *)
Theorem predict_batch_in_order (inputs : list MLPredictionInput) (s : rng_state) :
  Forall (fun i => float_of_int (previousCases i) <> None) inputs ->
  exists outs s',
    Main.predict_batch np_random g inputs s = (Ok outs, s') /\
    List.length outs = List.length inputs /\
    batch_run (Main.predict_outbreak np_random g) s inputs outs s' /\
    Forall (fun o => within_bounds o = true) outs /\
    (forall (k : nat) (i : MLPredictionInput),
        nth_error inputs k = Some i ->
        exists o sk sk',
          nth_error outs k = Some o /\
          Main.predict_outbreak np_random g i sk = (Ok o, sk') /\
          within_bounds o = true).
Proof.
  intros Hfit.
  destruct (batch_run_total inputs Hfit s) as (outs & s' & Hrun).
  assert (Hsound : forall i s0 o s0',
             Main.predict_outbreak np_random g i s0 = (Ok o, s0') ->
             within_bounds o = true).
  { intros i s0 o s0'.
    exact (predict_outbreak_sound rng_state np_random np_random_unit g i s0 s0' o). }
  exists outs, s'. split; [|split; [|split; [|split]]].
  - unfold Main.predict_batch. now rewrite (predict_loop_run inputs outs s s' Hrun []).
  - exact (batch_run_length _ _ _ _ _ Hrun).
  - exact Hrun.
  - exact (batch_run_Forall _ _ Hsound _ _ _ _ Hrun).
  - intros k i Hk.
    destruct (batch_run_nth _ _ _ _ _ Hrun k i Hk) as (o & sk & sk' & Ho & Hp).
    exists o, sk, sk'. split; [exact Ho|]. split; [exact Hp|]. eauto.
Qed.

End Batch.

Lemma predict_batch_in_order_witness :
  exists outs s',
    Main.predict_batch alternating_random Main.initial_globals
      [example_input; second_input] true = (Ok outs, s') /\
    List.length outs = 2%nat.
Proof.
  destruct (predict_batch_in_order bool alternating_random Main.initial_globals
              alternating_random_unit [example_input; second_input] true)
    as (outs & s' & H & Hlen & _).
  - repeat constructor; vm_compute; discriminate.
  - exists outs, s'. split; assumption.
Defined.

Lemma predict_batch_fails_as_a_whole_witness :
  Main.predict_batch alternating_random Main.initial_globals
    ([example_input] ++ huge_count_input :: [second_input]) true =
  (Raise (HTTPException 500 "Batch prediction failed"), false).
Proof.
  eapply (predict_batch_fails_as_a_whole bool alternating_random
            Main.initial_globals [example_input] [second_input] huge_count_input
            _ true false false OverflowError).
  - econstructor; [reflexivity | constructor].
  - reflexivity.
Defined.

(** * backend/main.py: resource optimisation *)

(** C4, as stated, fails: a ward that already has more beds than the
    ceiling is allocated fewer beds than it has. *)
Lemma simulate_optimization_caps_below_current :
  (0 <= beds crowded_ward)%Z /\
  exists v,
    dict_get "beds" (optimizedAllocation (Main.simulate_optimization crowded_ward))
      = Some v /\
    (v < beds crowded_ward)%Z.
Proof. split; [discriminate|]. exists 100%Z. split; reflexivity. Qed.

(** C4, amended.  For non-negative resource counts every field of the
    simulated allocation is the current count plus its fixed increment,
    capped at the field's ceiling: it lies between 0 and the ceiling, and it
    is at least the current count whenever that count does not exceed the
    ceiling.  The request of the test script yields 90, 130, 37 and 93. *)
Theorem simulate_optimization_allocation (i : OptimizationInput) :
  (0 <= beds i)%Z -> (0 <= nurses i)%Z ->
  (0 <= doctors i)%Z -> (0 <= equipment i)%Z ->
  allocated i "beds" (beds i) 5 100 /\
  allocated i "nurses" (nurses i) 10 150 /\
  allocated i "doctors" (doctors i) 2 50 /\
  allocated i "equipment" (equipment i) 3 100 /\
  optimizedAllocation (Main.simulate_optimization example_resources) =
    [ ("beds", 90); ("nurses", 130); ("doctors", 37); ("equipment", 93) ]%string%Z.
Proof.
  intros Hb Hn Hd He. unfold allocated.
  repeat split; try (eexists; split; [reflexivity|]); lia.
Qed.

Lemma simulate_optimization_allocation_witness :
  allocated example_resources "beds" 85 5 100.
Proof.
  apply (simulate_optimization_allocation example_resources);
    discriminate.
Defined.

(** The optimisation handler of [main.py] always answers: its fallback
    cannot raise. *)
Lemma optimize_resources_answers (np_mean : list float -> float)
    (g : Main.globals) (i : OptimizationInput) :
  exists o, Main.optimize_resources np_mean g i = Ok o.
Proof.
  unfold Main.optimize_resources, try_except.
  destruct (Main.optimization_model g) as [model|].
  - destruct (Main.optimize_with_model np_mean model i); eauto.
  - eauto.
Qed.

(** C10.  With no optimization model loaded, the whole answer of
    [optimize_resources] is the same for two requests that agree on the four
    resource counts, whatever their wait times and patient flows are. *)
Theorem optimize_resources_ignores_series (np_mean : list float -> float)
    (g : Main.globals) (i1 i2 : OptimizationInput) :
  Main.optimization_model g = None ->
  beds i1 = beds i2 -> nurses i1 = nurses i2 ->
  doctors i1 = doctors i2 -> equipment i1 = equipment i2 ->
  Main.optimize_resources np_mean g i1 = Main.optimize_resources np_mean g i2 /\
  Main.optimize_resources np_mean g i1 = Ok (Main.simulate_optimization i1).
Proof.
  intros Hnone Hb Hn Hd He. unfold Main.optimize_resources. rewrite Hnone.
  cbn [try_except]. unfold Main.simulate_optimization.
  rewrite Hb, Hn, Hd, He. split; reflexivity.
Qed.

Lemma optimize_resources_ignores_series_witness :
  Main.optimize_resources (fun _ => nan) Main.initial_globals example_resources =
  Main.optimize_resources (fun _ => nan) Main.initial_globals
    {| beds := 85; nurses := 120; doctors := 35; equipment := 90;
       currentWaitTimes := []; patientFlow := [1; 2]%float |}.
Proof.
  apply (optimize_resources_ignores_series (fun _ => nan) Main.initial_globals
           example_resources
           {| beds := 85; nurses := 120; doctors := 35; equipment := 90;
              currentWaitTimes := []; patientFlow := [1; 2]%float |});
    reflexivity.
Defined.

(** * backend/main-working.py: the empty wait-time list *)

(** C5 fails on [main-working.py]: with no current wait times the division
    by the length raises, and the handler turns that into the HTTP error;
    the request is not answered. *)
Theorem optimize_resources_empty_wait_times (b n d e : Z) (flow : list float) :
  MainWorking.optimize_resources
    {| beds := b; nurses := n; doctors := d; equipment := e;
       currentWaitTimes := []; patientFlow := flow |} =
  Raise (HTTPException 500 "Optimization failed").
Proof. reflexivity. Qed.

(** * Start-up *)

(** What [isLoaded] is after the start-up of [main-lstm.py]. *)
Lemma lstm_startup_isLoaded (keras_model : Type)
    (env : MainLstm.environment keras_model) :
  MainLstm.isLoaded
    (MainLstm.get_model_info (MainLstm.startup_event env MainLstm.initial_globals)) =
  (MainLstm.TENSORFLOW_AVAILABLE _ env && is_ok (MainLstm.lstm_model_path _ env)) ||
  (MainLstm.SKLEARN_AVAILABLE _ env && is_ok (MainLstm.scaler_path _ env)).
Proof.
  unfold MainLstm.startup_event, MainLstm.load_lstm_model, MainLstm.load_scaler.
  destruct env as [tf sk lp sp op]; cbn.
  destruct tf, sk, lp, sp; reflexivity.
Qed.

(** C8 fails on [main-lstm.py]: when the optimization model is the only
    artifact that loads, it is present after start-up and [isLoaded] is
    false. *)
Theorem lstm_startup_overlooks_optimization_model (keras_model : Type)
    (tf : bool) (e1 e2 : exn) (m : model_handle) :
  let g :=
    MainLstm.startup_event
      {| MainLstm.TENSORFLOW_AVAILABLE := tf;
         MainLstm.SKLEARN_AVAILABLE := true;
         MainLstm.lstm_model_path := Raise e1 : result keras_model;
         MainLstm.scaler_path := Raise e2;
         MainLstm.optimization_model_path := Some (Ok m) |}
      MainLstm.initial_globals in
  MainLstm.optimization_model g = Some m /\
  MainLstm.isLoaded (MainLstm.get_model_info g) = false.
Proof. destruct tf; split; reflexivity. Qed.

(** In [main.py] a load that raises resets [isLoaded], also after the
    other model was loaded. *)
Lemma main_startup_resets_on_error (m : model_handle) (e : exn) :
  let g :=
    Main.startup_event
      {| Main.outbreak_model_path := Some (Ok m);
         Main.optimization_model_path := Some (Raise e) |}
      Main.initial_globals in
  Main.outbreak_model g = Some m /\
  Main.isLoaded (Main.get_model_info g) = false.
Proof. split; reflexivity. Qed.

(** When no load raises, [isLoaded] of [main.py] is the disjunction of the
    two model flags. *)
Lemma main_startup_isLoaded (o1 o2 : option model_handle) :
  let g :=
    Main.startup_event
      {| Main.outbreak_model_path := option_map Ok o1;
         Main.optimization_model_path := option_map Ok o2 |}
      Main.initial_globals in
  Main.outbreak_model g = o1 /\ Main.optimization_model g = o2 /\
  Main.isLoaded (Main.get_model_info g) =
    Main.is_not_None o1 || Main.is_not_None o2.
Proof. destruct o1, o2; repeat split; reflexivity. Qed.

(** * backend/main-lstm.py: preprocessing *)

Lemma np_array_feature_row (i : MLPredictionInput) :
  (- 2 ^ 63 <= previousCases i < 2 ^ 64)%Z ->
  np_array [ MainLstm.feature_row i ] = [ map PyFloat (canonical_features i) ].
Proof.
  intros H. unfold np_array, MainLstm.feature_row. cbn [forallb fits_machine_int].
  replace (- 2 ^ 63 <=? previousCases i)%Z with true by (symmetry; apply Z.leb_le; lia).
  replace (previousCases i <? 2 ^ 64)%Z with true by (symmetry; apply Z.ltb_lt; lia).
  reflexivity.
Qed.

Lemma np_tile_one_row (v : list scalar) (n : nat) :
  MainLstm.np_tile [v] n = repeat v n.
Proof.
  unfold MainLstm.np_tile. induction n as [|n IH]; simpl; [reflexivity|].
  now rewrite IH.
Qed.

Lemma concat_repeat_length {A : Type} (v : list A) (n : nat) :
  List.length (List.concat (repeat v n)) = (n * List.length v)%nat.
Proof.
  induction n as [|n IH]; simpl; [reflexivity|].
  now rewrite length_app, IH.
Qed.

Lemma chunks_concat_repeat {A : Type} (v : list A) (n : nat) :
  MainLstm.chunks n (List.length v) (List.concat (repeat v n)) = repeat v n.
Proof.
  induction n as [|n IH]; simpl; [reflexivity|].
  rewrite firstn_app, firstn_all, Nat.sub_diag, firstn_O, app_nil_r.
  rewrite skipn_app, skipn_all, Nat.sub_diag, skipn_O. cbn [app].
  now rewrite IH.
Qed.

(** Reshaping [n] copies of one row to [(1, n, width)] wraps them. *)
Lemma np_reshape_tiled_row (v : list scalar) (n : nat) :
  MainLstm.np_reshape (MainLstm.np_tile [v] n) 1 n (List.length v) =
  Ok [ repeat v n ].
Proof.
  unfold MainLstm.np_reshape. rewrite np_tile_one_row, concat_repeat_length.
  rewrite Nat.mul_1_l, Nat.eqb_refl, chunks_concat_repeat.
  cbn [MainLstm.chunks]. rewrite firstn_all2 by (rewrite repeat_length; lia).
  reflexivity.
Qed.

(** C9.  [preprocess_input] builds the one-row feature array in the
    canonical order and returns the one-element batch of [sequence_length]
    rows, every one of them that feature row (its transform when a scaler is
    loaded).  For a case count within the 64-bit range the row is the six
    floats of the canonical feature vector; with the default length the
    shape is (1, 7, 6). *)
Theorem preprocess_input_replicates (i : MLPredictionInput) (sequence_length : nat) :
  let v := hd [] (np_array [ MainLstm.feature_row i ]) in
  MainLstm.preprocess_input None i sequence_length = Ok [ repeat v sequence_length ] /\
  (forall (sc : MainLstm.scaler_handle) (scaled : list float),
      sc v = Ok scaled ->
      MainLstm.preprocess_input (Some sc) i sequence_length =
        Ok [ repeat (map PyFloat scaled) sequence_length ]) /\
  (forall row, In row (repeat v MainLstm.default_sequence_length) -> row = v) /\
  MainLstm.tensor_shape [ repeat v MainLstm.default_sequence_length ] =
    (1, 7, 6)%nat /\
  ((- 2 ^ 63 <= previousCases i < 2 ^ 64)%Z ->
   v = map PyFloat (canonical_features i)).
Proof.
  intros v.
  assert (Hone : np_array [ MainLstm.feature_row i ] = [ v ]).
  { subst v. unfold np_array. destruct (forallb _ _); reflexivity. }
  assert (Hlen : List.length v = 6%nat).
  { subst v. unfold np_array. destruct (forallb _ _); reflexivity. }
  unfold MainLstm.preprocess_input. rewrite Hone.
  split; [|split; [|split; [|split]]].
  - cbn [bind MainLstm.shape_1]. apply np_reshape_tiled_row.
  - intros sc scaled Hsc. cbn [hd]. rewrite Hsc.
    cbn [bind MainLstm.shape_1]. apply np_reshape_tiled_row.
  - intros row Hin. exact (repeat_spec _ _ _ Hin).
  - unfold MainLstm.tensor_shape, MainLstm.default_sequence_length.
    cbn [repeat hd List.length]. now rewrite Hlen.
  - intros Hfit. subst v. now rewrite (np_array_feature_row i Hfit).
Qed.

Lemma preprocess_input_replicates_witness :
  MainLstm.preprocess_input None example_input 7 =
  Ok [ repeat (map PyFloat (canonical_features example_input)) 7 ].
Proof.
  destruct (preprocess_input_replicates example_input 7) as (H & _ & _ & _ & Hv).
  rewrite <- Hv; [exact H | split; [discriminate | reflexivity]].
Defined.

(** * Further properties of backend/main.py *)

Section BatchAlgebra.

Variable rng_state : Type.
Variable np_random : rng_state -> float * rng_state.
Variable g : Main.globals.

(** What the loop has collected only prefixes what it returns. *)
Lemma predict_loop_acc (inputs : list MLPredictionInput) :
  forall (acc : list MLPredictionOutput) (s : rng_state),
    Main.predict_loop np_random g inputs acc s =
    match Main.predict_loop np_random g inputs [] s with
    | (Ok outs, s') => (Ok (acc ++ outs), s')
    | (Raise e, s') => (Raise e, s')
    end.
Proof.
  induction inputs as [|i rest IH]; intros acc s; simpl.
  - now rewrite app_nil_r.
  - destruct (Main.predict_outbreak np_random g i s) as [[o|e] s1]; [|reflexivity].
    rewrite (IH (acc ++ [o])), (IH [o]).
    destruct (Main.predict_loop np_random g rest [] s1) as [[outs|e] s2];
      [|reflexivity].
    now rewrite <- app_assoc.
Qed.

Lemma predict_loop_app (xs ys : list MLPredictionInput) :
  forall (acc : list MLPredictionOutput) (s : rng_state),
    Main.predict_loop np_random g (xs ++ ys) acc s =
    match Main.predict_loop np_random g xs acc s with
    | (Ok outs, s1) => Main.predict_loop np_random g ys outs s1
    | (Raise e, s1) => (Raise e, s1)
    end.
Proof.
  induction xs as [|i rest IH]; intros acc s; simpl; [reflexivity|].
  destruct (Main.predict_outbreak np_random g i s) as [[o|e] s1];
    [apply IH | reflexivity].
Qed.

Lemma predict_loop_complete (inputs : list MLPredictionInput) :
  forall (s s' : rng_state) (outs : list MLPredictionOutput),
    Main.predict_loop np_random g inputs [] s = (Ok outs, s') ->
    batch_run (Main.predict_outbreak np_random g) s inputs outs s'.
Proof.
  induction inputs as [|i rest IH]; intros s s' outs; simpl.
  - intros H. injection H as <- <-. constructor.
  - destruct (Main.predict_outbreak np_random g i s) as [[o|e] s1] eqn:Hp;
      [|discriminate].
    rewrite predict_loop_acc.
    destruct (Main.predict_loop np_random g rest [] s1) as [[outs'|e] s2] eqn:Hl;
      [|discriminate].
    intros H. injection H as <- <-.
    econstructor; [exact Hp | now apply IH].
Qed.

(** [predict_batch] answers with a list exactly when every item was
    answered in turn, and then with the answers in order; whatever else
    happens, the only exception it raises is the batch-level one. *)
Theorem predict_batch_answers_iff (inputs : list MLPredictionInput)
    (s : rng_state) :
  (forall (outs : list MLPredictionOutput) (s' : rng_state),
      Main.predict_batch np_random g inputs s = (Ok outs, s') <->
      batch_run (Main.predict_outbreak np_random g) s inputs outs s') /\
  (forall (e : exn) (s' : rng_state),
      Main.predict_batch np_random g inputs s = (Raise e, s') ->
      e = HTTPException 500 "Batch prediction failed").
Proof.
  unfold Main.predict_batch. split.
  - intros outs s'. split.
    + destruct (Main.predict_loop np_random g inputs [] s) as [[o|e] s1] eqn:Hl;
        [|discriminate].
      intros H. injection H as <- <-. now apply predict_loop_complete.
    + intros Hrun.
      now rewrite (predict_loop_run rng_state np_random g inputs outs s s' Hrun []).
  - intros e s'.
    destruct (Main.predict_loop np_random g inputs [] s) as [[o|e'] s1];
      [discriminate|].
    intros H. now injection H as <- _.
Qed.

(** A batch cut in two: when the first part is answered, the whole batch
    does what the second part does from the generator state the first part
    left, the answers of the first part in front. *)
Theorem predict_batch_app (xs ys : list MLPredictionInput)
    (s s1 : rng_state) (outs1 : list MLPredictionOutput) :
  Main.predict_batch np_random g xs s = (Ok outs1, s1) ->
  Main.predict_batch np_random g (xs ++ ys) s =
  match Main.predict_batch np_random g ys s1 with
  | (Ok outs2, s2) => (Ok (outs1 ++ outs2), s2)
  | (Raise e, s2) => (Raise e, s2)
  end.
Proof.
  unfold Main.predict_batch. rewrite predict_loop_app.
  destruct (Main.predict_loop np_random g xs [] s) as [[o|e] s0]; [|discriminate].
  intros H. injection H as -> ->.
  rewrite predict_loop_acc.
  destruct (Main.predict_loop np_random g ys [] s1) as [[outs2|e] s2]; reflexivity.
Qed.

End BatchAlgebra.

Lemma predict_batch_app_witness :
  exists outs s',
    Main.predict_batch alternating_random Main.initial_globals
      ([example_input] ++ [second_input]) true = (Ok outs, s') /\
    List.length outs = 2%nat.
Proof.
  eexists. eexists.
  rewrite (predict_batch_app bool alternating_random Main.initial_globals
             [example_input] [second_input] true false _ eq_refl).
  split; reflexivity.
Defined.

Section ModelPath.

Variable rng_state : Type.
Variable np_random : rng_state -> float * rng_state.

(** With a model loaded, [predict_outbreak] of [main.py] reads the first
    row of the model's answer, position by position with the defaults 50, 25
    and 85, clamps it and leaves the generator alone; when the model raises
    or answers with no row at all, it does what the simulation does. *)
Theorem predict_outbreak_model_cases (g : Main.globals) (model : model_handle)
    (i : MLPredictionInput) (s : rng_state) :
  Main.outbreak_model g = Some model ->
  match model (prediction_features i) with
  | Ok (row :: _) =>
      Main.predict_outbreak np_random g i s =
      (Ok {| riskLevel := fmin 100 (fmax 0 (item_or row 0 50));
             predictedCases := fmax 0 (item_or row 1 25);
             confidence := fmin 100 (fmax 0 (item_or row 2 85));
             featureImportance := feature_importance |}, s)
  | Ok [] | Raise _ =>
      Main.predict_outbreak np_random g i s =
      Main.simulate_prediction np_random i s
  end.
Proof.
  intros Hm. unfold Main.predict_outbreak, Main.predict_with_model.
  rewrite Hm. fold (prediction_features i).
  destruct (model (prediction_features i)) as [[|row rest]|e]; reflexivity.
Qed.

(** Whatever path answers, the feature importance of a prediction is the
    fixed mapping: no model output reaches it. *)
Theorem predict_outbreak_feature_importance (g : Main.globals)
    (i : MLPredictionInput) (s s' : rng_state) (o : MLPredictionOutput) :
  Main.predict_outbreak np_random g i s = (Ok o, s') ->
  featureImportance o = feature_importance /\
  keys (featureImportance o) =
    [ "temperature"; "humidity"; "populationDensity"; "previousCases";
      "wastewaterLevels"; "socialMediaSentiment" ]%string.
Proof.
  intros H.
  assert (Hfi : featureImportance o = feature_importance).
  { destruct (predict_outbreak_cases rng_state np_random g i s)
      as [(o' & H' & model & _ & Hm) | H']; rewrite H' in H.
    - injection H as <- _. unfold Main.predict_with_model, bind in Hm.
      destruct (model _) as [prediction|e]; [|discriminate].
      destruct (index prediction 0) as [row|e]; [|discriminate].
      now injection Hm as <-.
    - destruct (float_of_int (previousCases i)) as [pc|] eqn:E.
      + rewrite (simulate_prediction_returns rng_state np_random i s pc E) in H.
        now injection H as <- _.
      + rewrite (simulate_prediction_raises rng_state np_random i s E) in H.
        discriminate. }
  rewrite Hfi. split; reflexivity.
Qed.

End ModelPath.

Lemma predict_outbreak_model_cases_witness :
  Main.predict_outbreak alternating_random wild_globals example_input true =
  (Ok {| riskLevel := 0; predictedCases := 0; confidence := 100;
         featureImportance := feature_importance |}, true).
Proof.
  exact (predict_outbreak_model_cases bool alternating_random wild_globals
           wild_model example_input true eq_refl).
Defined.

Lemma predict_outbreak_feature_importance_witness :
  featureImportance
    {| riskLevel := 0; predictedCases := 0; confidence := 100;
       featureImportance := feature_importance |} = feature_importance.
Proof.
  exact (proj1 (predict_outbreak_feature_importance bool alternating_random
                  wild_globals example_input true true _ eq_refl)).
Defined.

Section Optimisation.

Variable np_mean : list float -> float.

Lemma clamp_int_range (ceiling : Z) (x : float) (v : Z) :
  (0 <= ceiling)%Z -> Main.clamp_int ceiling x = Ok v -> (0 <= v <= ceiling)%Z.
Proof.
  intros Hc. unfold Main.clamp_int, bind.
  destruct (int_of_float x) as [n|e]; [|discriminate].
  intros H. injection H as <-. lia.
Qed.

(** What the model branch returns, when it returns. *)
Lemma optimize_with_model_shape (model : model_handle) (i : OptimizationInput)
    (o : OptimizationOutput) :
  Main.optimize_with_model np_mean model i = Ok o ->
  allocation_within_ceilings o /\
  keys (expectedImprovements o) =
    [ "waitTimeReduction"; "bedUtilization"; "staffEfficiency";
      "patientSatisfaction" ]%string /\
  recommendations o = fixed_recommendations.
Proof.
  unfold Main.optimize_with_model, bind.
  destruct (model _) as [optimization|e]; [|discriminate].
  destruct (index optimization 0) as [row|e]; [|discriminate].
  destruct (index row 0) as [x0|e]; [|discriminate].
  destruct (Main.clamp_int 100 x0) as [b|e] eqn:Eb; [|discriminate].
  destruct (index row 1) as [x1|e]; [|discriminate].
  destruct (Main.clamp_int 150 x1) as [n|e] eqn:En; [|discriminate].
  destruct (index row 2) as [x2|e]; [|discriminate].
  destruct (Main.clamp_int 50 x2) as [d|e] eqn:Ed; [|discriminate].
  destruct (index row 3) as [x3|e]; [|discriminate].
  destruct (Main.clamp_int 100 x3) as [q|e] eqn:Eq; [|discriminate].
  intros H. injection H as <-. split; [|split; reflexivity].
  exists b, n, d, q. split; [reflexivity|].
  apply clamp_int_range in Eb, En, Ed, Eq; lia.
Qed.

(** [optimize_resources] of [main.py] always answers, and whichever path
    answered, the allocation has the four resource fields, the improvements
    the four metrics, and the recommendations are the fixed list. *)
Theorem optimize_resources_shape (g : Main.globals) (i : OptimizationInput) :
  exists o,
    Main.optimize_resources np_mean g i = Ok o /\
    keys (optimizedAllocation o) =
      [ "beds"; "nurses"; "doctors"; "equipment" ]%string /\
    keys (expectedImprovements o) =
      [ "waitTimeReduction"; "bedUtilization"; "staffEfficiency";
        "patientSatisfaction" ]%string /\
    recommendations o = fixed_recommendations.
Proof.
  unfold Main.optimize_resources, try_except.
  destruct (Main.optimization_model g) as [model|].
  - destruct (Main.optimize_with_model np_mean model i) as [o|e] eqn:E.
    + exists o. split; [reflexivity|].
      destruct (optimize_with_model_shape model i o E)
        as ((b & n & d & q & Ha & _) & Hk & Hr).
      rewrite Ha. repeat split; assumption.
    + eexists. split; [reflexivity|]. repeat split; reflexivity.
  - eexists. split; [reflexivity|]. repeat split; reflexivity.
Qed.

(** For non-negative resource counts the allocation of [optimize_resources]
    is within [0, ceiling] in every field, whatever the loaded model
    returned (huge, negative or fractional values included). *)
Theorem optimize_resources_within_ceilings (g : Main.globals)
    (i : OptimizationInput) :
  (0 <= beds i)%Z -> (0 <= nurses i)%Z ->
  (0 <= doctors i)%Z -> (0 <= equipment i)%Z ->
  exists o,
    Main.optimize_resources np_mean g i = Ok o /\
    allocation_within_ceilings o.
Proof.
  intros Hb Hn Hd He.
  assert (Hsim : allocation_within_ceilings (Main.simulate_optimization i)).
  { eexists. eexists. eexists. eexists. split; [reflexivity|]. lia. }
  unfold Main.optimize_resources, try_except.
  destruct (Main.optimization_model g) as [model|]; [|eauto].
  destruct (Main.optimize_with_model np_mean model i) as [o|e] eqn:E; [|eauto].
  exists o. split; [reflexivity|].
  exact (proj1 (optimize_with_model_shape model i o E)).
Qed.



End Optimisation.

Lemma optimize_resources_within_ceilings_witness :
  exists o,
    Main.optimize_resources (fun _ => nan)
      {| Main.outbreak_model := None;
         Main.optimization_model :=
           Some (fun _ => Ok [[ 120.7; -3; 20.2; 1000; 5 ]]%float);
         Main.model_info := Main.model_info Main.initial_globals |}
      example_resources = Ok o /\
    allocation_within_ceilings o.
Proof.
  apply optimize_resources_within_ceilings; discriminate.
Defined.


(** What start-up of [main.py] leaves behind, for every state of the two
    model files: a model is kept exactly when its load succeeded (the second
    load is not tried after the first one raised), and [isLoaded] is true
    exactly when no load raised and at least one succeeded.  So [isLoaded]
    never claims a model that is absent, but it can deny one that is
    present. *)
Theorem main_startup_state (fs : Main.model_files) :
  let g := Main.startup_event fs Main.initial_globals in
  Main.is_not_None (Main.outbreak_model g) =
    load_succeeded (Main.outbreak_model_path fs) /\
  Main.is_not_None (Main.optimization_model g) =
    negb (load_raised (Main.outbreak_model_path fs)) &&
    load_succeeded (Main.optimization_model_path fs) /\
  Main.isLoaded (Main.get_model_info g) =
    negb (load_raised (Main.outbreak_model_path fs)) &&
    negb (load_raised (Main.optimization_model_path fs)) &&
    (load_succeeded (Main.outbreak_model_path fs) ||
     load_succeeded (Main.optimization_model_path fs)) /\
  (Main.isLoaded (Main.get_model_info g) = true ->
   Main.is_not_None (Main.outbreak_model g) ||
   Main.is_not_None (Main.optimization_model g) = true) /\
  Main.version (Main.get_model_info g) = "1.0.0"%string.
Proof.
  destruct fs as [[[m1|e1]|] [[m2|e2]|]]; cbn; repeat split; auto.
Qed.

(** * The batch handler over a stateless prediction *)

Section BatchHandler.

Variables A B : Type.
Variable predict : A -> result B.

Lemma batch_loop_acc (inputs : list A) :
  forall acc : list B,
    batch_loop predict inputs acc =
    match batch_loop predict inputs [] with
    | Ok outs => Ok (acc ++ outs)
    | Raise e => Raise e
    end.
Proof.
  induction inputs as [|i rest IH]; intros acc; simpl.
  - now rewrite app_nil_r.
  - destruct (predict i) as [o|e]; cbn [bind]; [|reflexivity].
    rewrite (IH (acc ++ [o])), (IH [o]).
    destruct (batch_loop predict rest []); [|reflexivity].
    now rewrite <- app_assoc.
Qed.

Lemma batch_loop_answers (inputs : list A) :
  forall outs : list B,
    batch_loop predict inputs [] = Ok outs <->
    Forall2 (fun i o => predict i = Ok o) inputs outs.
Proof.
  induction inputs as [|i rest IH]; intros outs; simpl.
  - split.
    + intros H. injection H as <-. constructor.
    + intros H. inversion H. reflexivity.
  - destruct (predict i) as [o|e] eqn:Hp; cbn [bind].
    + rewrite batch_loop_acc. split.
      * destruct (batch_loop predict rest []) as [outs'|e] eqn:Hl; [|discriminate].
        intros H. injection H as <-. constructor; [exact Hp|]. now apply IH.
      * intros H. inversion H as [|i' o' rest' outs' Hi Hrest]; subst.
        apply IH in Hrest. rewrite Hrest. cbn [app]. congruence.
    + split; [discriminate|].
      intros H. inversion H; subst. congruence.
Qed.

Lemma batch_loop_raises (inputs : list A) (i : A) (e : exn) :
  In i inputs -> predict i = Raise e ->
  exists e', batch_loop predict inputs [] = Raise e'.
Proof.
  induction inputs as [|j rest IH]; intros Hin Hi; [contradiction|].
  simpl. destruct (predict j) as [o|e'] eqn:Hp; cbn [bind]; [|eauto].
  destruct Hin as [-> | Hin]; [congruence|].
  rewrite batch_loop_acc. destruct (IH Hin Hi) as [e' ->]. eauto.
Qed.

(** The batch handler answers with a list exactly when every item is
    answered, and then with the answers in the order of the inputs; when an
    item raises it raises the batch-level error, and never anything else. *)
Lemma batch_handler_answers (inputs : list A) :
  (forall outs : list B,
      batch_handler predict inputs = Ok outs <->
      Forall2 (fun i o => predict i = Ok o) inputs outs) /\
  (forall (i : A) (e : exn),
      In i inputs -> predict i = Raise e ->
      batch_handler predict inputs =
        Raise (HTTPException 500 "Batch prediction failed")) /\
  (forall e : exn,
      batch_handler predict inputs = Raise e ->
      e = HTTPException 500 "Batch prediction failed").
Proof.
  unfold batch_handler, try_except. split; [|split].
  - intros outs. rewrite <- batch_loop_answers.
    destruct (batch_loop predict inputs []); split; congruence.
  - intros i e Hin Hi. destruct (batch_loop_raises inputs i e Hin Hi) as [e' ->].
    reflexivity.
  - intros e. destruct (batch_loop predict inputs []); congruence.
Qed.

End BatchHandler.

(** * backend/main-working.py: the enhanced simulation *)

Lemma clamp_between (lo hi x : float) :
  (lo <=? lo)%float = true -> (lo <=? hi)%float = true ->
  (hi <=? hi)%float = true ->
  (lo <=? fmin hi (fmax lo x))%float = true /\
  (fmin hi (fmax lo x) <=? hi)%float = true.
Proof.
  intros Hlo Hlh Hhi. split.
  - apply fmin_ge; [assumption | now apply fmax_ge_l].
  - now apply fmin_le_l.
Qed.

(** [predict_outbreak] of [main-working.py], case by case: for a case count
    that converts to a float it answers within the declared ranges, the
    confidence between 70 and 95 whatever the readings are (NaN included);
    otherwise it raises the HTTP error. *)
Theorem working_predict_outbreak_cases (i : MLPredictionInput) :
  match float_of_int (previousCases i) with
  | Some _ =>
      exists o,
        MainWorkingApi.predict_outbreak i = Ok o /\
        within_bounds o = true /\
        (70 <=? confidence o)%float = true /\
        (confidence o <=? 95)%float = true /\
        featureImportance o = feature_importance
  | None =>
      MainWorkingApi.predict_outbreak i =
        Raise (HTTPException 500 "Prediction failed")
  end.
Proof.
  unfold MainWorkingApi.predict_outbreak, float_of_int_r.
  destruct (float_of_int (previousCases i)) as [pc|]; [|reflexivity].
  cbn [bind try_except]. eexists. split; [reflexivity|].
  cbn [confidence featureImportance].
  match goal with
  | |- context [fmin 95 (fmax 70 ?x)] =>
      destruct (clamp_between 70 95 x eq_refl eq_refl eq_refl) as [Hlo Hhi]
  end.
  split; [|repeat split; assumption].
  apply within_bounds_intro.
  - apply clamp_percent.
  - apply clamp_percent.
  - apply fmax_ge_l. reflexivity.
  - apply (fleb_trans 0 70); [reflexivity | exact Hlo].
  - apply (fleb_trans _ 95); [exact Hhi | reflexivity].
Qed.

Lemma converts_answered (i : MLPredictionInput) :
  converts i = true ->
  exists o, MainWorkingApi.predict_outbreak i = Ok o /\ within_bounds o = true.
Proof.
  unfold converts. pose proof (working_predict_outbreak_cases i) as H.
  destruct (float_of_int (previousCases i)); [|discriminate].
  intros _. destruct H as (o & Ho & Hb & _). eauto.
Qed.

(** [predict_batch] of [main-working.py] answers exactly the batches whose
    case counts all convert to floats: then with one in-range prediction per
    input, in order; otherwise with the batch-level error. *)
Theorem working_predict_batch_cases (inputs : list MLPredictionInput) :
  if forallb converts inputs then
    exists outs,
      MainWorkingApi.predict_batch inputs = Ok outs /\
      Forall2 (fun i o => MainWorkingApi.predict_outbreak i = Ok o) inputs outs /\
      List.length outs = List.length inputs /\
      Forall (fun o => within_bounds o = true) outs
  else
    MainWorkingApi.predict_batch inputs =
      Raise (HTTPException 500 "Batch prediction failed").
Proof.
  unfold MainWorkingApi.predict_batch.
  destruct (batch_handler_answers _ _ MainWorkingApi.predict_outbreak inputs)
    as (Hok & Hraise & _).
  destruct (forallb converts inputs) eqn:Hall.
  - assert (Hruns : exists outs,
               Forall2 (fun i o => MainWorkingApi.predict_outbreak i = Ok o)
                 inputs outs /\
               Forall (fun o => within_bounds o = true) outs).
    { clear Hok Hraise. induction inputs as [|i rest IH].
      - exists []. split; constructor.
      - simpl in Hall. apply andb_true_iff in Hall as [Hi Hrest].
        destruct (converts_answered i Hi) as (o & Ho & Hb).
        destruct (IH Hrest) as (outs & Hf & Hbs).
        exists (o :: outs). split; constructor; assumption. }
    destruct Hruns as (outs & Hf & Hbs). exists outs.
    split; [now apply Hok|]. split; [exact Hf|]. split; [|exact Hbs].
    symmetry. exact (Forall2_length Hf).
  - assert (Hex : exists i, In i inputs /\ converts i = false).
    { clear Hok Hraise. induction inputs as [|i rest IH]; [discriminate|].
      simpl in Hall. destruct (converts i) eqn:Hi.
      - destruct (IH Hall) as (j & Hj & Hc). exists j. split; [now right | exact Hc].
      - exists i. split; [now left | exact Hi]. }
    destruct Hex as (i & Hin & Hc).
    apply (Hraise i (HTTPException 500 "Prediction failed") Hin).
    unfold converts in Hc. pose proof (working_predict_outbreak_cases i) as H.
    destruct (float_of_int (previousCases i)); [discriminate | exact H].
Qed.

(** Start-up of [main-working.py] only renames the model type: whatever
    files exist, [isLoaded] and the other fields stay as they were (so
    [isLoaded] stays true with no model file at all), and running it again
    changes nothing. *)
Theorem working_startup_keeps_isLoaded (lstm_model_exists scaler_exists : bool)
    (info : MainLstm.ModelInfo) :
  let info' := MainWorkingApi.startup_event lstm_model_exists scaler_exists info in
  MainLstm.isLoaded info' = MainLstm.isLoaded info /\
  MainLstm.version info' = MainLstm.version info /\
  MainLstm.accuracy info' = MainLstm.accuracy info /\
  MainLstm.lastTraining info' = MainLstm.lastTraining info /\
  MainWorkingApi.startup_event lstm_model_exists scaler_exists info' = info' /\
  MainLstm.isLoaded
    (MainWorkingApi.startup_event lstm_model_exists scaler_exists
       MainWorkingApi.model_info) = true /\
  MainLstm.modelType
    (MainWorkingApi.startup_event lstm_model_exists scaler_exists
       MainWorkingApi.model_info) =
    (if lstm_model_exists then "LSTM Model Available"
     else "Simulation (LSTM Ready)")%string.
Proof.
  destruct lstm_model_exists; cbn; repeat split; reflexivity.
Qed.

Lemma bed_utilization_range (b : Z) :
  (0 <= b)%Z ->
  exists f,
    float_of_int (Z.min 95 (b + 10)) = Some f /\
    (10 <=? f)%float = true /\ (f <=? 95)%float = true.
Proof.
  intros Hb.
  set (n := Z.min 95 (b + 10)).
  assert (Hn : (10 <= n <= 95)%Z) by (unfold n; lia).
  replace n with (Z.of_nat (Z.to_nat (n - 10)) + 10)%Z by lia.
  assert (Hm : (Z.to_nat (n - 10) < 86)%nat) by lia.
  set (m := Z.to_nat (n - 10)) in *. clearbody m. clear Hn n Hb.
  do 86 (destruct m as [|m];
         [eexists; split; [vm_compute; reflexivity | split; vm_compute; reflexivity]|]).
  lia.
Qed.

(** [optimize_resources] of [main-working.py] on a request it can serve
    (some wait times, non-negative beds, a staff count that converts to a
    float): the allocation is that of the simple simulation of [main.py],
    and every improvement is within its clamp, whatever the wait times are.
    Whatever the request, the only exception it raises is the HTTP error. *)
Theorem working_optimize_resources_answers (i : OptimizationInput) (staff : float) :
  currentWaitTimes i <> [] ->
  (0 <= beds i)%Z ->
  float_of_int (nurses i + doctors i) = Some staff ->
  (exists (o : OptimizationOutput) (wr bu se ps : float),
      MainWorking.optimize_resources i = Ok o /\
      optimizedAllocation o = optimizedAllocation (Main.simulate_optimization i) /\
      recommendations o = fixed_recommendations /\
      expectedImprovements o =
        [ ("waitTimeReduction", wr); ("bedUtilization", bu);
          ("staffEfficiency", se); ("patientSatisfaction", ps) ]%string /\
      (15 <=? wr)%float = true /\ (wr <=? 40)%float = true /\
      (10 <=? bu)%float = true /\ (bu <=? 95)%float = true /\
      (se <=? 25)%float = true /\
      (0 <=? ps)%float = true /\ (ps <=? 30)%float = true) /\
  (forall (j : OptimizationInput) (e : exn),
      MainWorking.optimize_resources j = Raise e ->
      e = HTTPException 500 "Optimization failed").
Proof.
  intros Hne Hb Hstaff. split.
  - destruct (bed_utilization_range (beds i) Hb) as (bu & Hbu & Hbu1 & Hbu2).
    unfold MainWorking.optimize_resources, MainWorking.average, float_of_int_r.
    destruct (currentWaitTimes i) as [|w ws] eqn:Hw; [congruence|].
    cbn [List.length Nat.eqb bind]. rewrite Hstaff, Hbu. cbn [bind try_except].
    match goal with
    | |- context [fmin 40 (fmax 15 ?x)] =>
        destruct (clamp_between 15 40 x eq_refl eq_refl eq_refl) as [Hlo Hhi];
        set (wr := fmin 40 (fmax 15 x)) in *
    end.
    eexists. exists wr, bu. eexists. eexists.
    split; [reflexivity|].
    cbn [optimizedAllocation recommendations expectedImprovements].
    split; [reflexivity|]. split; [reflexivity|]. split; [reflexivity|].
    repeat split; try assumption.
    + apply fmin_le_l. reflexivity.
    + apply fmin_ge; [reflexivity|].
      eapply fmul_nonneg; [vm_compute; reflexivity|].
      apply (fleb_trans 0 15); [reflexivity | exact Hlo].
    + apply fmin_le_l. reflexivity.
  - intros j e. unfold MainWorking.optimize_resources, try_except.
    match goal with
    | |- match ?body with _ => _ end = _ -> _ => destruct body
    end; congruence.
Qed.

Lemma working_optimize_resources_answers_witness :
  exists o,
    MainWorking.optimize_resources example_resources = Ok o /\
    optimizedAllocation o =
      optimizedAllocation (Main.simulate_optimization example_resources).
Proof.
  destruct (working_optimize_resources_answers example_resources 155%float)
    as [(o & wr & bu & se & ps & H & Ha & _) _].
  - discriminate.
  - discriminate.
  - reflexivity.
  - exists o. split; assumption.
Defined.

(** * backend/main-lstm.py: start-up and the handlers *)

(** What start-up of [main-lstm.py] leaves behind, for every environment:
    each artifact is kept exactly when its library was importable and its
    load succeeded; [isLoaded] looks at the LSTM model and the scaler only,
    and [modelType] is "LSTM" exactly when the LSTM model was loaded. *)
Theorem lstm_startup_state (keras_model : Type)
    (env : MainLstm.environment keras_model) :
  let g := MainLstm.startup_event env MainLstm.initial_globals in
  let lstm_loaded :=
    MainLstm.TENSORFLOW_AVAILABLE _ env && is_ok (MainLstm.lstm_model_path _ env) in
  let scaler_loaded :=
    MainLstm.SKLEARN_AVAILABLE _ env && is_ok (MainLstm.scaler_path _ env) in
  Main.is_not_None (MainLstm.lstm_model _ g) = lstm_loaded /\
  Main.is_not_None (MainLstm.scaler _ g) = scaler_loaded /\
  Main.is_not_None (MainLstm.optimization_model g) =
    MainLstm.SKLEARN_AVAILABLE _ env &&
    load_succeeded (MainLstm.optimization_model_path _ env) /\
  MainLstm.isLoaded (MainLstm.get_model_info g) = lstm_loaded || scaler_loaded /\
  MainLstm.modelType (MainLstm.get_model_info g) =
    (if lstm_loaded then "LSTM" else "Simulation")%string.
Proof.
  unfold MainLstm.startup_event, MainLstm.load_lstm_model, MainLstm.load_scaler.
  destruct env as [tf sk lp sp op]; cbn.
  destruct tf, sk, lp as [m1|e1], sp as [m2|e2], op as [[m3|e3]|];
    repeat split; reflexivity.
Qed.

Section LstmHandlers.

Variable singleton_converts : bool.
Variable py_hash : string -> Z.
Variable np_mean : list float -> float.

Lemma lstm_simulation_within_bounds (i : MLPredictionInput) (o : MLPredictionOutput) :
  MainLstm.simulate_prediction py_hash i = Ok o ->
  within_bounds o = true /\ featureImportance o = feature_importance.
Proof.
  unfold MainLstm.simulate_prediction, float_of_int_r.
  destruct (float_of_int (previousCases i)) as [pc|]; [|discriminate].
  cbn [bind]. intros H. injection H as <-. split; [|reflexivity].
  destruct (hashed_confidence_range (py_hash (timestamp i))) as [Hlo Hhi].
  apply within_bounds_intro.
  - apply clamp_percent.
  - apply clamp_percent.
  - apply fmax_ge_l. reflexivity.
  - apply (fleb_trans 0 70); [reflexivity | exact Hlo].
  - apply (fleb_trans _ 95); [exact Hhi | reflexivity].
Qed.

Lemma predict_with_lstm_within_bounds
    (g : MainLstm.globals MainLstmApi.keras_model)
    (i : MLPredictionInput) (o : MLPredictionOutput) :
  MainLstmApi.predict_with_lstm singleton_converts g i = MainLstmApi.Answer o ->
  within_bounds o = true /\ featureImportance o = feature_importance.
Proof.
  unfold MainLstmApi.predict_with_lstm.
  destruct (MainLstm.lstm_model _ g) as [model|]; [|discriminate].
  destruct (MainLstmApi.lift (MainLstm.preprocess_input _ _ _)) as [sequence|e];
    cbn [MainLstmApi.and_then]; [|discriminate].
  destruct (MainLstmApi.lift (model sequence)) as [prediction|e];
    cbn [MainLstmApi.and_then]; [|discriminate].
  match goal with
  | |- MainLstmApi.and_then ?p _ = _ -> _ => destruct p as [p'|e]
  end; cbn [MainLstmApi.and_then]; [|discriminate].
  destruct (MainLstmApi.read _ p' 0 _) as [risk|e];
    cbn [MainLstmApi.and_then]; [|discriminate].
  destruct (MainLstmApi.read _ p' 1 _) as [cases|e];
    cbn [MainLstmApi.and_then]; [|discriminate].
  destruct (MainLstmApi.read _ p' 2 _) as [conf|e];
    cbn [MainLstmApi.and_then]; [|discriminate].
  intros H. injection H as <-. split; [|reflexivity].
  apply within_bounds_intro;
    try apply clamp_percent; apply fmax_ge_l; reflexivity.
Qed.

(** [predict_outbreak] of [main-lstm.py] either is answered by the model
    branch or does what the simulation does. *)
Lemma lstm_predict_outbreak_paths (tf : bool)
    (g : MainLstm.globals MainLstmApi.keras_model) (i : MLPredictionInput) :
  (exists o, MainLstmApi.predict_outbreak singleton_converts py_hash tf g i = Ok o /\
             MainLstmApi.predict_with_lstm singleton_converts g i = MainLstmApi.Answer o) \/
  MainLstmApi.predict_outbreak singleton_converts py_hash tf g i =
    MainLstm.simulate_prediction py_hash i.
Proof.
  unfold MainLstmApi.predict_outbreak.
  destruct (Main.is_not_None (MainLstm.lstm_model _ g) && tf).
  - destruct (MainLstmApi.predict_with_lstm singleton_converts g i) as [o|e] eqn:E.
    + left. eauto.
    + right. reflexivity.
  - right. destruct (MainLstm.simulate_prediction py_hash i); reflexivity.
Qed.

(** Whatever the loaded LSTM model and scaler return, a prediction of
    [main-lstm.py] is within the declared ranges and carries the fixed
    feature importance; every request whose case count converts to a float
    is answered; and the only exception that escapes is the overflow of a
    case count that does not convert. *)
Theorem lstm_predict_outbreak_within_bounds (tf : bool)
    (g : MainLstm.globals MainLstmApi.keras_model) (i : MLPredictionInput) :
  (forall o, MainLstmApi.predict_outbreak singleton_converts py_hash tf g i = Ok o ->
             within_bounds o = true /\ featureImportance o = feature_importance) /\
  (converts i = true ->
   exists o, MainLstmApi.predict_outbreak singleton_converts py_hash tf g i = Ok o) /\
  (forall e, MainLstmApi.predict_outbreak singleton_converts py_hash tf g i = Raise e ->
             e = OverflowError /\ converts i = false).
Proof.
  destruct (lstm_predict_outbreak_paths tf g i) as [(o' & H & Hm) | H]; rewrite H.
  - split; [|split].
    + intros o Ho. injection Ho as <-.
      now apply (predict_with_lstm_within_bounds g i).
    + eauto.
    + discriminate.
  - split; [|split].
    + intros o. apply lstm_simulation_within_bounds.
    + unfold converts, MainLstm.simulate_prediction, float_of_int_r.
      destruct (float_of_int (previousCases i)); [|discriminate].
      cbn [bind]. eauto.
    + unfold converts, MainLstm.simulate_prediction, float_of_int_r.
      destruct (float_of_int (previousCases i)); cbn [bind]; [discriminate|].
      intros e He. injection He as <-. split; reflexivity.
Qed.

(** A rank-2 answer of the LSTM model is indexed by rows.  For the batch of
    one the handler sends, an answer with a single output is read only
    where the installed numpy still converts a one-element array: there it
    is the risk, and the cases and the confidence are the defaults 25 and
    85; where numpy refuses the conversion the request is answered by the
    simulation.  An answer whose row has several outputs (or none) cannot be
    converted by [float()] on any release, and the request is answered by
    the simulation: the model's numbers are not used. *)
Theorem lstm_rank2_answer (g : MainLstm.globals MainLstmApi.keras_model)
    (model : MainLstmApi.keras_model) (i : MLPredictionInput)
    (sequence : MainLstm.tensor) (rows : list (list float)) :
  MainLstm.lstm_model _ g = Some model ->
  MainLstm.preprocess_input (MainLstm.scaler _ g) i MainLstm.default_sequence_length
    = Ok sequence ->
  model sequence = Ok (MainLstmApi.Rank2 rows) ->
  (forall r : float,
      rows = [[r]] ->
      MainLstmApi.predict_outbreak singleton_converts py_hash true g i =
      if singleton_converts
      then Ok {| riskLevel := fmin 100 (fmax 0 r);
                 predictedCases := 25;
                 confidence := 85;
                 featureImportance := feature_importance |}
      else MainLstm.simulate_prediction py_hash i) /\
  (forall (row : list float) (rest : list (list float)),
      rows = row :: rest -> List.length row <> 1%nat ->
      MainLstmApi.predict_outbreak singleton_converts py_hash true g i =
      MainLstm.simulate_prediction py_hash i).
Proof.
  intros Hm Hseq Hmodel.
  unfold MainLstmApi.predict_outbreak, MainLstmApi.predict_with_lstm.
  rewrite Hm, Hseq. cbn [Main.is_not_None andb MainLstmApi.lift MainLstmApi.and_then].
  rewrite Hmodel. cbn [MainLstmApi.lift MainLstmApi.and_then].
  split.
  - intros r ->. destruct singleton_converts; reflexivity.
  - intros row rest -> Hlen.
    cbn [MainLstmApi.read nth_error].
    destruct row as [|x [|y row]]; cbn [MainLstmApi.float_of_row MainLstmApi.and_then];
      try reflexivity.
    simpl in Hlen. congruence.
Qed.

(** A rank-3 answer of the LSTM model is read at the last timestep of its
    first element, position by position with the defaults 50, 25 and 85,
    and clamped. *)
Theorem lstm_rank3_answer (g : MainLstm.globals MainLstmApi.keras_model)
    (model : MainLstmApi.keras_model) (i : MLPredictionInput)
    (sequence : MainLstm.tensor) (step : list float) (steps : list (list float))
    (rest : list (list (list float))) :
  MainLstm.lstm_model _ g = Some model ->
  MainLstm.preprocess_input (MainLstm.scaler _ g) i MainLstm.default_sequence_length
    = Ok sequence ->
  model sequence = Ok (MainLstmApi.Rank3 ((steps ++ [step]) :: rest)) ->
  MainLstmApi.predict_outbreak singleton_converts py_hash true g i =
  Ok {| riskLevel := fmin 100 (fmax 0 (item_or step 0 50));
        predictedCases := fmax 0 (item_or step 1 25);
        confidence := fmin 100 (fmax 0 (item_or step 2 85));
        featureImportance := feature_importance |}.
Proof.
  intros Hm Hseq Hmodel.
  unfold MainLstmApi.predict_outbreak, MainLstmApi.predict_with_lstm.
  rewrite Hm, Hseq. cbn [Main.is_not_None andb MainLstmApi.lift MainLstmApi.and_then].
  rewrite Hmodel. cbn [MainLstmApi.lift MainLstmApi.and_then].
  unfold MainLstmApi.last_timestep. cbn [index nth_error bind].
  assert (Hlast : last (steps ++ [step]) [] = step) by apply last_last.
  destruct (steps ++ [step]) as [|t ts] eqn:E.
  - destruct steps; discriminate.
  - rewrite Hlast. reflexivity.
Qed.

(** [optimize_resources] of [main-lstm.py] always answers with the fixed
    recommendations; without scikit-learn a stored model is not consulted;
    and for non-negative resource counts the allocation is within its
    ceilings whatever the model returned. *)
Theorem lstm_optimize_resources_shape (sk : bool)
    (g : MainLstm.globals MainLstmApi.keras_model) (i : OptimizationInput) :
  (exists o,
      MainLstmApi.optimize_resources np_mean sk g i = Ok o /\
      recommendations o = fixed_recommendations /\
      ((0 <= beds i)%Z -> (0 <= nurses i)%Z ->
       (0 <= doctors i)%Z -> (0 <= equipment i)%Z ->
       allocation_within_ceilings o)) /\
  (sk = false ->
   MainLstmApi.optimize_resources np_mean sk g i =
     Ok (Main.simulate_optimization i)).
Proof.
  assert (Hsim : (0 <= beds i)%Z -> (0 <= nurses i)%Z ->
                 (0 <= doctors i)%Z -> (0 <= equipment i)%Z ->
                 allocation_within_ceilings (Main.simulate_optimization i)).
  { intros. eexists. eexists. eexists. eexists. split; [reflexivity|]. lia. }
  unfold MainLstmApi.optimize_resources, try_except. split.
  - destruct (MainLstm.optimization_model g) as [model|];
      [|eexists; split; [reflexivity | split; [reflexivity | exact Hsim]]].
    destruct sk;
      [|eexists; split; [reflexivity | split; [reflexivity | exact Hsim]]].
    destruct (Main.optimize_with_model np_mean model i) as [o|e] eqn:E;
      [|eexists; split; [reflexivity | split; [reflexivity | exact Hsim]]].
    destruct (optimize_with_model_shape np_mean model i o E) as (Ha & _ & Hr).
    exists o. split; [reflexivity|]. split; [exact Hr|]. intros; exact Ha.
  - intros ->. destruct (MainLstm.optimization_model g); reflexivity.
Qed.

(** [predict_batch] of [main-lstm.py]: a batch whose case counts all
    convert to floats is answered; an answer has one in-range prediction per
    input, in order; and an item that raises makes the whole batch raise the
    batch-level error. *)
Theorem lstm_predict_batch_cases (tf : bool)
    (g : MainLstm.globals MainLstmApi.keras_model)
    (inputs : list MLPredictionInput) :
  (forallb converts inputs = true ->
   exists outs, MainLstmApi.predict_batch singleton_converts py_hash tf g inputs = Ok outs) /\
  (forall outs,
      MainLstmApi.predict_batch singleton_converts py_hash tf g inputs = Ok outs ->
      Forall2 (fun i o => MainLstmApi.predict_outbreak singleton_converts py_hash tf g i = Ok o)
        inputs outs /\
      List.length outs = List.length inputs /\
      Forall (fun o => within_bounds o = true) outs) /\
  (forall i e,
      In i inputs -> MainLstmApi.predict_outbreak singleton_converts py_hash tf g i = Raise e ->
      MainLstmApi.predict_batch singleton_converts py_hash tf g inputs =
        Raise (HTTPException 500 "Batch prediction failed")).
Proof.
  unfold MainLstmApi.predict_batch.
  destruct (batch_handler_answers _ _ (MainLstmApi.predict_outbreak singleton_converts py_hash tf g) inputs)
    as (Hok & Hraise & _).
  split; [|split].
  - intros Hall.
    assert (Hruns : exists outs,
               Forall2 (fun i o => MainLstmApi.predict_outbreak singleton_converts py_hash tf g i = Ok o)
                 inputs outs).
    { clear Hok Hraise. induction inputs as [|i rest IH].
      - exists []. constructor.
      - simpl in Hall. apply andb_true_iff in Hall as [Hi Hrest].
        destruct (lstm_predict_outbreak_within_bounds tf g i) as (_ & Hans & _).
        destruct (Hans Hi) as (o & Ho).
        destruct (IH Hrest) as (outs & Hf).
        exists (o :: outs). constructor; assumption. }
    destruct Hruns as (outs & Hf). exists outs. now apply Hok.
  - intros outs Houts. apply Hok in Houts. split; [exact Houts|]. split.
    + symmetry. exact (Forall2_length Houts).
    + clear Hok Hraise. induction Houts as [|i o rest outs Hi Hrest IH];
        constructor; [|exact IH].
      exact (proj1 (proj1 (lstm_predict_outbreak_within_bounds tf g i) o Hi)).
  - exact Hraise.
Qed.

End LstmHandlers.

Lemma lstm_rank2_answer_witness :
  MainLstmApi.predict_outbreak true (fun _ => 12345%Z) true
    (lstm_globals single_output_model) example_input =
  Ok {| riskLevel := 60; predictedCases := 25; confidence := 85;
        featureImportance := feature_importance |} /\
  MainLstmApi.predict_outbreak false (fun _ => 12345%Z) true
    (lstm_globals single_output_model) example_input =
  MainLstm.simulate_prediction (fun _ => 12345%Z) example_input /\
  (forall singleton_converts : bool,
      MainLstmApi.predict_outbreak singleton_converts (fun _ => 12345%Z) true
        (lstm_globals dense_model) example_input =
      MainLstm.simulate_prediction (fun _ => 12345%Z) example_input).
Proof.
  split; [|split].
  - exact (proj1 (lstm_rank2_answer true (fun _ => 12345%Z)
                    (lstm_globals single_output_model) single_output_model
                    example_input _ [[ 60 ]]%float eq_refl eq_refl eq_refl)
             60%float eq_refl).
  - exact (proj1 (lstm_rank2_answer false (fun _ => 12345%Z)
                    (lstm_globals single_output_model) single_output_model
                    example_input _ [[ 60 ]]%float eq_refl eq_refl eq_refl)
             60%float eq_refl).
  - intros singleton_converts.
    apply (proj2 (lstm_rank2_answer singleton_converts (fun _ => 12345%Z)
                    (lstm_globals dense_model) dense_model example_input _
                    [[ 60; 30; 90 ]]%float eq_refl eq_refl eq_refl)
             [ 60; 30; 90 ]%float [] eq_refl).
    discriminate.
Defined.

Lemma lstm_rank3_answer_witness :
  MainLstmApi.predict_outbreak false (fun _ => 12345%Z) true
    (lstm_globals sequence_model) example_input =
  Ok {| riskLevel := 60; predictedCases := 30; confidence := 90;
        featureImportance := feature_importance |}.
Proof.
  exact (lstm_rank3_answer false (fun _ => 12345%Z) (lstm_globals sequence_model)
           sequence_model example_input _ [ 60; 30; 90 ]%float
           [[ 10; 20; 30 ]]%float [] eq_refl eq_refl eq_refl).
Defined.

Section LstmFallback.

Variable singleton_converts : bool.
Variable py_hash : string -> Z.


End LstmFallback.

